(** * Trace canonicalisation and LCS similarity: a shallow embedding

    The development follows the Python sources of the trace-analysis
    pipeline:

    - [fourth iteration/trace_analysis.py]  (module [FourthIteration]),
    - [second iteration/trace_analysis.py]  (module [SecondIteration]),
    - [first iteration/trace_instrumenter.py] (module [FirstIteration]).

    Conventions of the embedding.

    - A Python [str] is a Rocq [string]; a character is a code point
      below 256, and the character classes of [str.strip], [str.lower]
      and [str.splitlines] are the ones Python uses on that range.
    - A Python [int] that counts something is a [nat]; a [float] score is
      the exact rational it rounds ([Q]): [lcs / n] is the quotient
      itself, [1.0] is [1] and [0.0] is [0].
    - A failing list access ([IndexError]) or division
      ([ZeroDivisionError]) is [None] in the option monad, so that a
      result [Some v] says that the code returns [v] without raising.
    - [json.loads] is not part of the repository: it is a section
      variable returning [Some v] for a decoded value and [None] for
      [json.JSONDecodeError], the one exception the parser catches; it
      is taken to raise nothing else.
    - A dict is the list of its items, keys distinct, in insertion
      order; [str()] of a decoded value always returns.
    - [execution trace/analyze_traces.py] repeats the canonicaliser and
      the similarity engine of the second iteration word for word. *)

From Stdlib Require Import QArith Lqa Ascii String DecimalString DecimalPos.
From stdpp Require Import base option list strings numbers gmap.

Open Scope string_scope.
Open Scope list_scope.
Open Scope nat_scope.

(** ** Python built-ins used by the sources *)

Module Py.

(** [for x in xs: s = body(s, x)] where the body may raise. *)
Fixpoint for_each {St I : Type} (body : St → I → option St) (s : St) (xs : list I)
  : option St :=
  match xs with
  | [] => Some s
  | x :: xs' => s' ← body s x; for_each body s' xs'
  end.

(** [range(a, b)] for [a <= b]. *)
Definition range (a b : nat) : list nat := seq a (b - a).

(** [l[i]] with a non-negative index. *)
Definition getitem {A : Type} (l : list A) (i : nat) : option A := l !! i.

(** [l[i] = x] with a non-negative index. *)
Definition setitem {A : Type} (l : list A) (i : nat) (x : A) : option (list A) :=
  if decide (i < length l) then Some (<[i:=x]> l) else None.

(** [a / b] on two non-negative ints. *)
Definition truediv (a b : nat) : option Q :=
  match b with
  | O => None
  | S _ => Some (Z.of_nat a # Pos.of_nat b)
  end.

(** [round(x, 4)]: the nearest multiple of [1/10000].  A score that lies
    exactly half-way goes to the even multiple here; in Python the
    rounding error of the float decides such a tie. *)
Definition round4 (x : Q) : Q :=
  let scaled := (Qnum x * 10000)%Z in
  let d := Zpos (Qden x) in
  let q := (scaled / d)%Z in
  let r := (scaled mod d)%Z in
  let up :=
    match (2 * r ?= d)%Z with
    | Lt => false
    | Gt => true
    | Eq => Z.odd q
    end in
  Qred ((if up then q + 1 else q)%Z # 10000).

(** *** Characters and strings *)

Definition code (c : ascii) : nat := nat_of_ascii c.

(** [c.isspace()] on code points below 256. *)
Definition isspace (c : ascii) : bool :=
  let n := code c in
  ((9 <=? n) && (n <=? 13)) || ((28 <=? n) && (n <=? 32))
  || (n =? 133) || (n =? 160).

(** [c.lower()] on code points below 256. *)
Definition lower_char (c : ascii) : ascii :=
  let n := code c in
  if ((65 <=? n) && (n <=? 90))
     || ((192 <=? n) && (n <=? 222) && negb (n =? 215))
  then ascii_of_nat (n + 32) else c.

Fixpoint map_chars (f : ascii → ascii) (s : string) : string :=
  match s with
  | EmptyString => EmptyString
  | String c s' => String (f c) (map_chars f s')
  end.

(** [s.lower()] *)
Definition lower (s : string) : string := map_chars lower_char s.

(** [s.lstrip()] *)
Fixpoint lstrip (s : string) : string :=
  match s with
  | EmptyString => EmptyString
  | String c s' => if isspace c then lstrip s' else s
  end.

(** [s.rstrip()] *)
Fixpoint rstrip (s : string) : string :=
  match s with
  | EmptyString => EmptyString
  | String c s' =>
      match rstrip s' with
      | EmptyString => if isspace c then EmptyString else String c EmptyString
      | r => String c r
      end
  end.

(** [s.strip()] *)
Definition strip (s : string) : string := rstrip (lstrip s).

(** [s.startswith(p)] *)
Definition startswith (s p : string) : bool := String.prefix p s.

(** [needle in hay] *)
Fixpoint contains (needle hay : string) : bool :=
  String.prefix needle hay ||
  match hay with
  | EmptyString => false
  | String _ hay' => contains needle hay'
  end.

(** [s in (t1, t2, ...)] *)
Definition in_tuple (s : string) (ts : list string) : bool :=
  existsb (String.eqb s) ts.

(** Line boundaries of [str.splitlines] below 256, the pair CR LF apart. *)
Definition is_linebreak (c : ascii) : bool :=
  let n := code c in
  ((10 <=? n) && (n <=? 13)) || ((28 <=? n) && (n <=? 30)) || (n =? 133).

(** [s.splitlines()], with [cur] the line read so far. *)
Fixpoint splitlines_from (cur s : string) : list string :=
  match s with
  | EmptyString =>
      match cur with EmptyString => [] | _ => [cur] end
  | String c s' =>
      if (code c =? 13) then
        match s' with
        | String c' s'' =>
            if (code c' =? 10) then cur :: splitlines_from EmptyString s''
            else cur :: splitlines_from EmptyString s'
        | EmptyString => [cur]
        end
      else if is_linebreak c then cur :: splitlines_from EmptyString s'
      else splitlines_from (cur +:+ String c EmptyString) s'
  end.

Definition splitlines (s : string) : list string :=
  splitlines_from EmptyString s.

(** [s.split(sep)] for a one-character separator. *)
Fixpoint split_from (sep : ascii) (cur s : string) : list string :=
  match s with
  | EmptyString => [cur]
  | String c s' =>
      if Ascii.eqb c sep then cur :: split_from sep EmptyString s'
      else split_from sep (cur +:+ String c EmptyString) s'
  end.

Definition split (s : string) (sep : ascii) : list string :=
  split_from sep EmptyString s.

(** [str(z)] for an int. *)
Definition str_int (z : Z) : string := NilZero.string_of_int (Z.to_int z).

(** *** Decoded JSON values

    What [json.loads] returns.  The sources observe a float only
    through [bool()] and [str()], so a float carries exactly these
    two: whether it is zero, and its [repr].  A dict is the list of its
    items in insertion order. *)
#[local] Set Warnings "-register-all".
Inductive json : Type :=
| JNull
| JBool (b : bool)
| JInt (z : Z)
| JFloat (zero : bool) (repr : string)
| JStr (s : string)
| JList (xs : list json)
| JDict (items : list (string * json)).

Abbreviation dict := (list (string * json)).

(** [bool(v)] *)
Definition truthy (v : json) : bool :=
  match v with
  | JNull => false
  | JBool b => b
  | JInt z => negb (z =? 0)%Z
  | JFloat zero _ => negb zero
  | JStr s => negb (String.eqb s "")
  | JList xs => match xs with [] => false | _ => true end
  | JDict items => match items with [] => false | _ => true end
  end.

(** [a or b] *)
Definition or_ (a b : json) : json := if truthy a then a else b.

(** [d.get(k)]: the value, or [None] when the key is missing. *)
Fixpoint get (d : dict) (k : string) : json :=
  match d with
  | [] => JNull
  | (k', v) :: d' => if String.eqb k' k then v else get d' k
  end.

Definition isinstance_str (v : json) : bool :=
  match v with JStr _ => true | _ => false end.

(** [isinstance(v, int)]; [bool] is a subclass of [int]. *)
Definition isinstance_int (v : json) : bool :=
  match v with JInt _ | JBool _ => true | _ => false end.

Definition isinstance_list (v : json) : bool :=
  match v with JList _ => true | _ => false end.


Definition hex_digit (n : nat) : ascii :=
  match String.get n "0123456789abcdef" with
  | Some c => c
  | None => "0"%char
  end.

(** One character of [repr(s)] for the chosen quote. *)
Definition repr_char (quote c : ascii) : string :=
  let n := code c in
  if Ascii.eqb c quote || (n =? 92) then String "\"%char (String c EmptyString)
  else if n =? 9 then "\t"
  else if n =? 10 then "\n"
  else if n =? 13 then "\r"
  else if (n <? 32) || ((127 <=? n) && (n <=? 160)) || (n =? 173) then
    "\x" +:+ String (hex_digit (n / 16)) (String (hex_digit (n mod 16)) EmptyString)
  else String c EmptyString.

Fixpoint concat_map_chars (f : ascii → string) (s : string) : string :=
  match s with
  | EmptyString => EmptyString
  | String c s' => f c +:+ concat_map_chars f s'
  end.

(** [repr(s)] for a string: single quotes unless the text has a single
    quote and no double quote. *)
Definition repr_str (s : string) : string :=
  let squote := "'"%char in
  let dquote := ascii_of_nat 34 in
  let quote :=
    if contains (String squote EmptyString) s
       && negb (contains (String dquote EmptyString) s)
    then dquote else squote in
  String quote (concat_map_chars (repr_char quote) s) +:+ String quote EmptyString.

Definition str_bool (b : bool) : string := if b then "True" else "False".

(** [repr(v)] *)
Fixpoint repr (v : json) : string :=
  match v with
  | JNull => "None"
  | JBool b => str_bool b
  | JInt z => str_int z
  | JFloat _ r => r
  | JStr s => repr_str s
  | JList xs =>
      "[" +:+
      (fix items (xs : list json) : string :=
         match xs with
         | [] => EmptyString
         | [x] => repr x
         | x :: xs' => repr x +:+ ", " +:+ items xs'
         end) xs
      +:+ "]"
  | JDict kvs =>
      "{" +:+
      (fix items (kvs : list (string * json)) : string :=
         match kvs with
         | [] => EmptyString
         | [(k, x)] => repr_str k +:+ ": " +:+ repr x
         | (k, x) :: kvs' => repr_str k +:+ ": " +:+ repr x +:+ ", " +:+ items kvs'
         end) kvs
      +:+ "}"
  end.

(** [str(v)] *)
Definition str (v : json) : string :=
  match v with
  | JStr s => s
  | _ => repr v
  end.

(** *** More built-ins *)

(** [sep.join(xs)] *)
Fixpoint join (sep : string) (xs : list string) : string :=
  match xs with
  | [] => EmptyString
  | [x] => x
  | x :: xs' => x +:+ sep +:+ join sep xs'
  end.

(** [s.count(c)] for a one-character [c]. *)
Fixpoint count (s : string) (c : ascii) : nat :=
  match s with
  | EmptyString => 0
  | String a s' => (if Ascii.eqb a c then 1 else 0) + count s' c
  end.

(** [xs[lo:hi]] with non-negative bounds. *)
Definition slice {A : Type} (xs : list A) (lo hi : nat) : list A :=
  drop lo (take hi xs).

(** [x in xs] for a list of strings. *)
Definition in_list (x : string) (xs : list string) : bool :=
  existsb (String.eqb x) xs.

(** The double quote. *)
Definition dquote : string := String (ascii_of_nat 34) EmptyString.

(** The line feed. *)
Definition lf : ascii := ascii_of_nat 10.

End Py.

(** ** The similarity engine *)

(** The recurrence that both dynamic programs tabulate: [lcs_table s1 s2 i j]
    is the entry for the first [i] elements of [s1] and the first [j]
    elements of [s2]. *)
Section Recurrence.
Context {A : Type} `{EqDecision A}.

Fixpoint lcs_table (s1 s2 : list A) (i : nat) : nat → nat :=
  match i with
  | O => λ _, 0
  | S i' =>
      fix row (j : nat) : nat :=
        match j with
        | O => 0
        | S j' =>
            match s1 !! i', s2 !! j' with
            | Some a, Some b =>
                if decide (a = b) then lcs_table s1 s2 i' j' + 1
                else lcs_table s1 s2 i' j `max` row j'
            | _, _ => 0
            end
        end
  end.
End Recurrence.

Module FourthIteration.
Import Py.

(** *** Trace parser *)

Section Parser.
(** [json.loads]: [None] stands for [json.JSONDecodeError]. *)
Variable json_loads : string → option json.

(** [isinstance(parsed, list) and all(isinstance(x, dict) for x in parsed)],
    returning the array typed as a list of records. *)
Fixpoint as_dicts (xs : list json) : option (list dict) :=
  match xs with
  | [] => Some []
  | JDict d :: xs' => ds ← as_dicts xs'; Some (d :: ds)
  | _ :: _ => None
  end.

(** Body of [for line in stderr_text.splitlines()]. *)
Definition parse_line (traces : list (list dict)) (line : string)
  : list (list dict) :=
  let line := strip line in
  if String.eqb line "" then traces
  else
    match json_loads line with
    | Some (JList parsed) =>
        match as_dicts parsed with
        | Some ds => traces ++ [ds]
        | None => traces
        end
    | Some _ => traces
    | None => traces
    end.

Definition parse_json_lines_from_stderr (stderr_text : string)
  : list (list dict) :=
  foldl parse_line [] (splitlines stderr_text).

Definition merge_traces (trace_lists : list (list dict)) : list dict :=
  foldl (λ merged t, merged ++ t) [] trace_lists.
End Parser.

(** *** Canonicaliser *)

Definition is_hex_lower (c : ascii) : bool :=
  let n := code c in
  ((97 <=? n) && (n <=? 102)) || ((48 <=? n) && (n <=? 57)).

Definition is_hex_or_underscore (c : ascii) : bool :=
  let n := code c in
  ((48 <=? n) && (n <=? 57)) || ((97 <=? n) && (n <=? 102))
  || ((65 <=? n) && (n <=? 70)) || (n =? 95).

(** A literal at the start of [s]: the rest of [s] after it. *)
Fixpoint re_lit (p s : string) : option string :=
  match p, s with
  | EmptyString, _ => Some s
  | String a p', String b s' => if Ascii.eqb a b then re_lit p' s' else None
  | String _ _, EmptyString => None
  end.

(** [[class]*], greedy: the rest of [s] after the longest run. *)
Fixpoint re_star (cls : ascii → bool) (s : string) : string :=
  match s with
  | String c s' => if cls c then re_star cls s' else s
  | EmptyString => EmptyString
  end.

(** [[class]+] *)
Definition re_plus (cls : ascii → bool) (s : string) : option string :=
  match s with
  | String c s' => if cls c then Some (re_star cls s') else None
  | EmptyString => None
  end.

(** [OBFUSCATOR_NAME_PATTERN.match(s)] for
    [^(?:a0_0x|_0x|_0x[a-f0-9]+|0x)[0-9a-fA-F_]*]: the alternatives are
    tried in order; the closing class may match nothing, so the first
    alternative that matches decides.  The result is the text after the
    match, [None] when there is no match. *)
Definition OBFUSCATOR_NAME_PATTERN_match (s : string) : option string :=
  let tail := re_star is_hex_or_underscore in
  match re_lit "a0_0x" s with
  | Some r => Some (tail r)
  | None =>
      match re_lit "_0x" s with
      | Some r => Some (tail r)
      | None =>
          match re_lit "_0x" s ≫= re_plus is_hex_lower with
          | Some r => Some (tail r)
          | None =>
              match re_lit "0x" s with
              | Some r => Some (tail r)
              | None => None
              end
          end
      end
  end.

(** The class [[0-9a-zA-Z_]]. *)
Definition is_word (c : ascii) : bool :=
  let n := code c in
  ((48 <=? n) && (n <=? 57)) || ((97 <=? n) && (n <=? 122))
  || ((65 <=? n) && (n <=? 90)) || (n =? 95).

(** [re.sub(r'[^0-9a-zA-Z_]', '_', s)] *)
Definition sub_non_word (s : string) : string :=
  map_chars (λ c, if is_word c then c else "_"%char) s.

Definition canonicalize_entry (entry : dict) : string :=
  let func := or_ (get entry "function") (or_ (get entry "event") (JStr "")) in
  let func := match func with JStr s => s | v => str v end in
  let func_norm := strip func in
  if is_Some_dec (OBFUSCATOR_NAME_PATTERN_match func_norm) then "OBFUSCATOR_WRAPPER"
  else
    let lower := lower func_norm in
    if contains "process.on" lower
       || in_tuple lower ["data_handler"; "data"; "handler"; "ondata"; "on_data"]
    then "HANDLER"
    else if in_tuple lower ["global"; "<module>"; "root"] then "GLOBAL"
    else if contains "parseint" lower || contains "parse_int" lower then "PARSE_INT"
    else if contains "to_string" lower || contains "tostring" lower then "TO_STRING"
    else if contains "console" lower || contains "log" lower then "CONSOLE_LOG"
    else if startswith lower "anonymous" || startswith lower "<anonymous>" then "ANON_FN"
    else
      let cleaned := sub_non_word func_norm in
      let cleaned := if String.eqb cleaned "" then "FN_UNKNOWN" else cleaned in
      "FN:" +:+ cleaned.

(** Body of [for e in raw_trace] in [canonicalize_trace]. *)
Definition canonicalize_step (include_line : bool) (tokens : list string) (e : dict)
  : list string :=
  let token := canonicalize_entry e in
  let token :=
    if include_line then
      let line := get e "line" in
      if isinstance_int line && negb (in_tuple token ["OBFUSCATOR_WRAPPER"])
      then token +:+ "@L" +:+ str line
      else token
    else token in
  if String.eqb token "OBFUSCATOR_WRAPPER" then tokens
  else tokens ++ [token].

Definition canonicalize_trace (raw_trace : list dict) (include_line : bool)
  : list string :=
  foldl (canonicalize_step include_line) [] raw_trace.

(** *** Similarity engine *)

Section Lcs.
Context {A : Type} `{EqDecision A}.

(** Body of [for j in range(1, n + 1)] in [lcs_length]. *)
Definition lcs_cell (a : A) (seq2 : list A) (prev cur : list nat) (j : nat)
  : option (list nat) :=
  b ← Py.getitem seq2 (j - 1);
  if decide (a = b) then
    p ← Py.getitem prev (j - 1);
    Py.setitem cur j (p + 1)
  else
    p ← Py.getitem prev j;
    c ← Py.getitem cur (j - 1);
    Py.setitem cur j (p `max` c).

(** Body of [for i in range(1, m + 1)]: builds [cur] and returns it as
    the next [prev]. *)
Definition lcs_row (seq1 seq2 : list A) (n : nat) (prev : list nat) (i : nat)
  : option (list nat) :=
  let cur := replicate (n + 1) 0 in
  a ← Py.getitem seq1 (i - 1);
  Py.for_each (lcs_cell a seq2 prev) cur (Py.range 1 (n + 1)).

Definition lcs_length (seq1 seq2 : list A) : option nat :=
  let m := length seq1 in
  let n := length seq2 in
  if decide (m = 0 ∨ n = 0) then Some 0
  else
    let prev := replicate (n + 1) 0 in
    prev ← Py.for_each (lcs_row seq1 seq2 n) prev (Py.range 1 (m + 1));
    Py.getitem prev n.

Definition similarity_lcs (seq1 seq2 : list A) : option Q :=
  if decide (seq1 = [] ∧ seq2 = []) then Some 1%Q
  else if decide (seq1 = [] ∨ seq2 = []) then Some 0%Q
  else
    lcs ← lcs_length seq1 seq2;
    Py.truediv lcs (length seq1 `max` length seq2).
End Lcs.

(** *** Execution adapter and orchestrator *)

(** The dict returned by [SimilarityCalculator.compute_pair]; [lcs_len] is
    its key ["lcs_length"]. *)
Record pair_result : Type := {
  similarity : Q;
  len_a : nat;
  len_b : nat;
  lcs_len : nat
}.

(** [SimilarityCalculator.compute_pair], with the calculator's
    [include_line_in_token] passed along. *)
Definition compute_pair (include_line_in_token : bool) (traceA traceB : list dict)
  : option pair_result :=
  let tokensA := canonicalize_trace traceA include_line_in_token in
  let tokensB := canonicalize_trace traceB include_line_in_token in
  sim ← similarity_lcs tokensA tokensB;
  lcs_len ← lcs_length tokensA tokensB;
  Some {| similarity := round4 sim;
          len_a := length tokensA;
          len_b := length tokensB;
          lcs_len := lcs_len |}.

(** What [subprocess.run(["node", path], ...)] and the temporary file
    around it do: the process ends and its stderr is captured, or the
    deadline passes, or something else raises. *)
Inductive run_outcome : Type :=
| Completed (stderr : string)
| TimeoutExpired
| OtherException.

(** A value of the report dict built by [process_file]. *)
Inductive report_value : Type :=
| RFile (stem : string)
| RTraces (lengths : gmap string nat)
| RSimilarity (score : Q).

Definition nl : string := String (ascii_of_nat 10) EmptyString.

Definition auto_wrap_snippet : string :=
  nl +:+ "// auto-wrap exported functions to catch object-attached callbacks" +:+ nl
  +:+ "try { if (globalThis && globalThis.__wrapObjectFunctions) "
  +:+ "globalThis.__wrapObjectFunctions((typeof module!=='undefined' && module.exports) ? module.exports : globalThis, 'root'); } catch (e) {}"
  +:+ nl.

Section Orchestrator.
(** The collaborators: the JSON decoder, the instrumenter
    ([None]: it raised), the process host, and the dump of a trace
    under [traces/] ([false]: it raised). *)
Variable json_loads : string → option json.
Variable path : Type.
Variable instrument_file : path → option string.
Variable run_node : string → string → nat → run_outcome.
Variable dump_trace : string → string → list dict → bool.

Definition execute_instrumented_code_and_collect_traces
  (instrumented_code input_data : string) (timeout : nat) : list dict :=
  let instrumented_code_to_run := instrumented_code +:+ auto_wrap_snippet in
  match run_node instrumented_code_to_run input_data timeout with
  | Completed stderr =>
      let parsed_lists := parse_json_lines_from_stderr json_loads stderr in
      merge_traces parsed_lists
  | TimeoutExpired => []
  | OtherException => []
  end.

Definition get_test_input (filename : string) : string := "12 34" +:+ nl.

(** One round of [for version, path in files.items()]: the value left
    in [traces_raw[version]]. *)
Definition variant_trace (name stem version : string) (p : option path)
  : list dict :=
  match p with
  | None => []
  | Some p =>
      match instrument_file p with
      | None => []
      | Some instrumented =>
          let trace :=
            execute_instrumented_code_and_collect_traces
              instrumented (get_test_input name) 50 in
          if dump_trace stem version trace then trace else []
      end
  end.

Definition pairs : list (string * string * string) :=
  [ ("original", "obfuscated", "original_vs_obfuscated");
    ("obfuscated", "deobfuscated", "obfuscated_vs_deobfuscated");
    ("deobfuscated", "original", "deobfuscated_vs_original") ].

(** Body of [for a, b, key in pairs]. *)
Definition score_pair (include_line_in_token : bool)
  (traces_raw : gmap string (list dict))
  (results : gmap string report_value) (p : string * string * string)
  : option (gmap string report_value) :=
  let '(a, b, key) := p in
  let ta := default [] (traces_raw !! a) in
  let tb := default [] (traces_raw !! b) in
  comp ← compute_pair include_line_in_token ta tb;
  Some (<[key := RSimilarity (similarity comp)]> results).

(** [CodeAnalyzer.process_file]; [files] is what
    [find_file_variations] returned, [name] and [stem] are
    [original_file.name] and [original_file.stem]. *)
Definition process_file (include_line_in_token : bool) (name stem : string)
  (files : list (string * option path)) : option (gmap string report_value) :=
  let traces_raw :=
    foldl (λ (traces_raw : gmap string (list dict)) '(version, p),
             <[version := variant_trace name stem version p]> traces_raw)
          ∅ files in
  let results : gmap string report_value :=
    <["traces" := RTraces (length <$> traces_raw)]> {[ "file" := RFile stem ]} in
  for_each (score_pair include_line_in_token traces_raw) results pairs.

(** The dict built by [find_file_variations]: the original is always
    there, a counterpart may be [None]. *)
Definition file_variations (original : path) (obfuscated deobfuscated : option path)
  : list (string * option path) :=
  [ ("original", Some original);
    ("obfuscated", obfuscated);
    ("deobfuscated", deobfuscated) ].
End Orchestrator.

End FourthIteration.

Module SecondIteration.
Import Py.

Section Parser.
Variable json_loads : string → option json.

Definition parse_line (traces : list (list dict)) (line : string)
  : list (list dict) :=
  let line := strip line in
  if String.eqb line "" then traces
  else
    match json_loads line with
    | Some parsed =>
        if isinstance_list parsed then
          match parsed with
          | JList xs =>
              match FourthIteration.as_dicts xs with
              | Some ds => traces ++ [ds]
              | None => traces
              end
          | _ => traces
          end
        else traces
    | None => traces
    end.

Definition parse_json_lines_from_stderr (stderr_text : string)
  : list (list dict) :=
  let traces := [] in
  if String.eqb stderr_text "" then traces
  else foldl parse_line traces (splitlines stderr_text).
End Parser.

Definition canonicalize_entry (entry : dict) : string :=
  let func := or_ (get entry "function") (or_ (get entry "event") (JStr "")) in
  let func := match func with JStr s => s | v => str v end in
  let func_norm := strip func in
  if is_Some_dec (FourthIteration.OBFUSCATOR_NAME_PATTERN_match func_norm)
  then "OBFUSCATOR_WRAPPER"
  else
    let lower := lower func_norm in
    if contains "process.on" lower
       || in_tuple lower ["data_handler"; "data"; "handler"; "ondata"; "on_data"]
    then "HANDLER"
    else if String.eqb "global" lower || String.eqb lower "<module>"
            || String.eqb lower "root" then "GLOBAL"
    else if contains "parseint" lower || contains "parse_int" lower then "PARSE_INT"
    else if contains "to_string" lower || contains "tostring" lower then "TO_STRING"
    else if contains "console" lower || contains "log" lower then "CONSOLE_LOG"
    else if startswith lower "anonymous" || startswith lower "<anonymous>" then "ANON_FN"
    else
      let cleaned := FourthIteration.sub_non_word func_norm in
      let cleaned := if String.eqb cleaned "" then "FN_UNKNOWN" else cleaned in
      "FN:" +:+ cleaned.

Section Lcs.
Context {A : Type} `{EqDecision A}.

Definition lcs_cell (a : A) (seq2 : list A) (prev cur : list nat) (j : nat)
  : option (list nat) :=
  b ← getitem seq2 (j - 1);
  if decide (a = b) then
    p ← getitem prev (j - 1);
    setitem cur j (p + 1)
  else
    p ← getitem prev j;
    c ← getitem cur (j - 1);
    setitem cur j (if c <=? p then p else c).

Definition lcs_row (seq1 seq2 : list A) (n : nat) (prev : list nat) (i : nat)
  : option (list nat) :=
  let cur := replicate (n + 1) 0 in
  a ← getitem seq1 (i - 1);
  for_each (lcs_cell a seq2 prev) cur (range 1 (n + 1)).

Definition lcs_length (seq1 seq2 : list A) : option nat :=
  let m := length seq1 in
  let n := length seq2 in
  if decide (m = 0 ∨ n = 0) then Some 0
  else
    let prev := replicate (n + 1) 0 in
    prev ← for_each (lcs_row seq1 seq2 n) prev (range 1 (m + 1));
    getitem prev n.

Definition similarity_lcs (seq1 seq2 : list A) : option Q :=
  if decide (seq1 = [] ∧ seq2 = []) then Some 1%Q
  else if decide (seq1 = [] ∨ seq2 = []) then Some 0%Q
  else
    lcs ← lcs_length seq1 seq2;
    let denom := length seq1 `max` length seq2 in
    if 0 <? denom then truediv lcs denom else Some 0%Q.
End Lcs.

End SecondIteration.

Module FirstIteration.
Import Py.

Section Parser.
Variable json_loads : string → option json.

(** The loop of [execute_and_trace] over the lines of stderr: the
    first line that decodes to a list is the trace, and the loop
    stops there. *)
Fixpoint first_list (lines : list string) : list json :=
  match lines with
  | [] => []
  | line :: rest =>
      if negb (String.eqb (strip line) "") then
        match json_loads line with
        | Some (JList parsed) => parsed
        | Some _ => first_list rest
        | None => first_list rest
        end
      else first_list rest
  end.

(** The part of [execute_and_trace] after the process has ended. *)
Definition traces_of_stderr (stderr : string) : list json :=
  if negb (String.eqb stderr "") then
    first_list (split (strip stderr) (ascii_of_nat 10))
  else [].
End Parser.

Section Lcs.
Context {A : Type} `{EqDecision A}.

(** [dp[i][j] = v] *)
Definition set_cell (dp : list (list nat)) (i j v : nat)
  : option (list (list nat)) :=
  row ← getitem dp i;
  row' ← setitem row j v;
  setitem dp i row'.

(** [dp[i][j]] *)
Definition get_cell (dp : list (list nat)) (i j : nat) : option nat :=
  row ← getitem dp i;
  getitem row j.

(** Body of the inner loop of [_lcs]. *)
Definition lcs_cell (seq1 seq2 : list A) (i : nat) (dp : list (list nat)) (j : nat)
  : option (list (list nat)) :=
  a ← getitem seq1 (i - 1);
  b ← getitem seq2 (j - 1);
  if decide (a = b) then
    d ← get_cell dp (i - 1) (j - 1);
    set_cell dp i j (d + 1)
  else
    u ← get_cell dp (i - 1) j;
    l ← get_cell dp i (j - 1);
    set_cell dp i j (u `max` l).

(** Body of the outer loop. *)
Definition lcs_row (seq1 seq2 : list A) (n : nat) (dp : list (list nat)) (i : nat)
  : option (list (list nat)) :=
  for_each (lcs_cell seq1 seq2 i) dp (range 1 (n + 1)).

(** [SimilarityCalculator._lcs]: the whole table; the rows are
    separate lists. *)
Definition _lcs (seq1 seq2 : list A) : option nat :=
  let m := length seq1 in
  let n := length seq2 in
  let dp := replicate (m + 1) (replicate (n + 1) 0) in
  dp ← for_each (lcs_row seq1 seq2 n) dp (range 1 (m + 1));
  get_cell dp m n.
End Lcs.

(** *** The instrumenter *)

(** The class [\w] of [re] on code points below 256. *)
Definition is_w (c : ascii) : bool :=
  let n := code c in
  ((48 <=? n) && (n <=? 57)) || ((65 <=? n) && (n <=? 90)) || (n =? 95)
  || ((97 <=? n) && (n <=? 122)) || (n =? 170) || ((178 <=? n) && (n <=? 179))
  || (n =? 181) || ((185 <=? n) && (n <=? 186)) || ((188 <=? n) && (n <=? 190))
  || ((192 <=? n) && (n <=? 214)) || ((216 <=? n) && (n <=? 246))
  || ((248 <=? n) && (n <=? 255)).

(** The text a greedy [[class]*] matches at the start of [s]. *)
Fixpoint re_run (cls : ascii → bool) (s : string) : string :=
  match s with
  | String c s' => if cls c then String c (re_run cls s') else EmptyString
  | EmptyString => EmptyString
  end.

(** [re.match(r'^\s*function\s+(\w+)', line)]: group 1 of the match.  The
    classes of neighbouring parts are disjoint, so each greedy run is the
    only one that can match. *)
Definition match_function (line : string) : option string :=
  r ← FourthIteration.re_lit "function" (FourthIteration.re_star isspace line);
  r ← FourthIteration.re_plus isspace r;
  match re_run is_w r with
  | EmptyString => None
  | name => Some name
  end.

(** The local variables of the loop of [instrument]. *)
Record instrument_state : Type := {
  instrumented : list string;
  current_function : string;
  line_number : nat;
  in_function : bool;
  brace_count : Z
}.

Definition header : list string :=
  [ "(function() {";
    "const __trace = {";
    "  entries: [],";
    "  currentFunc: 'global',";
    "  add(func, line) {";
    "    this.entries.push({function: func, line: line});";
    "  },";
    "  output() {";
    "    if (this.entries.length > 0) {";
    "      process.stderr.write(JSON.stringify(this.entries) + '\n');";
    "    }";
    "  }";
    "};";
    "" ].

Definition footer : list string :=
  [ "";
    "// Output traces";
    "process.on('beforeExit', () => __trace.output());";
    "setTimeout(() => __trace.output(), 1000);";
    "})();" ].

(** [f'  __trace.add("{current_function}", {line_number});'] *)
Definition trace_point (current_function : string) (line_number : nat) : string :=
  "  __trace.add(" +:+ dquote +:+ current_function +:+ dquote +:+ ", "
  +:+ str_int (Z.of_nat line_number) +:+ ");".

(** [line.strip() and not line.strip().startswith('//')] *)
Definition significant (line : string) : bool :=
  negb (String.eqb (strip line) "") && negb (startswith (strip line) "//").

(** Body of [for line in lines].  The window
    [lines[max(0, line_number-2):line_number+2]] is a list of lines, and
    [in] tests whether one of them is the text [process.stdin.on]. *)
Definition instrument_line (lines : list string) (st : instrument_state)
    (line : string) : instrument_state :=
  let line_number := line_number st + 1 in
  let '(current_function, in_function) :=
    match match_function line with
    | Some name => (name, true)
    | None =>
        if contains "function(" line || contains "function (" line then
          if in_list "process.stdin.on"
               (slice lines (0 `max` (line_number - 2)) (line_number + 2))
          then ("data_handler", true)
          else (current_function st, in_function st)
        else (current_function st, in_function st)
    end in
  let brace_count :=
    (brace_count st + (Z.of_nat (count line "{") - Z.of_nat (count line "}")))%Z in
  let '(in_function, current_function) :=
    if (brace_count =? 0)%Z && in_function then (false, "global")
    else (in_function, current_function) in
  let instrumented :=
    if significant line
    then instrumented st ++ [trace_point current_function line_number]
    else instrumented st in
  let instrumented := instrumented ++ [line] in
  {| instrumented := instrumented;
     current_function := current_function;
     line_number := line_number;
     in_function := in_function;
     brace_count := brace_count |}.

Definition initial_state : instrument_state :=
  {| instrumented := header;
     current_function := "global";
     line_number := 0;
     in_function := false;
     brace_count := 0 |}.

(** [TraceInstrumenter.instrument] *)
Definition instrument (code : string) : string :=
  let lines := split code lf in
  let st := foldl (instrument_line lines) initial_state lines in
  join (String lf EmptyString) (instrumented st ++ footer).

End FirstIteration.

(** ** The static extraction of probes
    (src/execution trace/analyze_traces.py) *)

Module ExecutionTrace.
Import Py.

(** The class of group 1: a single or a double quote. *)
Definition is_quote (c : ascii) : bool := (code c =? 39) || (code c =? 34).

(** Its complement, the class of group 2. *)
Definition not_quote (c : ascii) : bool := negb (is_quote c).

(** [\d] below 256 *)
Definition is_digit (c : ascii) : bool := (48 <=? code c) && (code c <=? 57).

(** The last character of a string, as a string. *)
Fixpoint last_char (s : string) : string :=
  match s with
  | EmptyString => EmptyString
  | String c EmptyString => s
  | String _ s' => last_char s'
  end.

(** Group 2 of [\s*(N+)\s*], [N] any character but a quote, on [run], the characters up to the next
    quote.  The leading [\s*] takes all the white space at the start
    and the group the rest, white space at the end included; when [run]
    is white space only, [\s*] gives back its last character to the
    group; an empty [run] does not match. *)
Definition name_group (run : string) : option string :=
  match FourthIteration.re_star isspace run with
  | EmptyString =>
      match run with
      | EmptyString => None
      | _ => Some (last_char run)
      end
  | name => Some name
  end.

(** [TRACE_CALL_RE] tried at the start of [s], for
    [__trace\.add\(\s*(Q)\s*(N+)\s*\1\s*,\s*(\d+)\s*\)], with [Q] a
    single or a double quote and [N] any other character:
    groups 2 and 3 and the text after the match.  Every class is
    followed by a character outside it, so a shorter run never makes
    the rest match where the longest does not: the opening quote ends
    the first [\s*], the character after the name's run is a quote and
    must be the opening one, and a digit cannot be the closing
    parenthesis. *)
Definition TRACE_CALL_RE_match (s : string) : option (string * string * string) :=
  r ← FourthIteration.re_lit "__trace.add(" s;
  match FourthIteration.re_star isspace r with
  | String q r =>
      if is_quote q then
        func ← name_group (FirstIteration.re_run not_quote r);
        match FourthIteration.re_star not_quote r with
        | String q' r =>
            if Ascii.eqb q' q then
              r ← FourthIteration.re_lit "," (FourthIteration.re_star isspace r);
              let r := FourthIteration.re_star isspace r in
              match FirstIteration.re_run is_digit r with
              | EmptyString => None
              | digits =>
                  r ← FourthIteration.re_lit ")"
                        (FourthIteration.re_star isspace
                           (FourthIteration.re_star is_digit r));
                  Some (func, digits, r)
              end
            else None
        | EmptyString => None
        end
      else None
  | EmptyString => None
  end.

(** [TRACE_CALL_RE.finditer(text)]: the matches from left to right,
    none overlapping another; [skip] counts the characters of the last
    match still to pass. *)
Fixpoint finditer (skip : nat) (text : string) : list (string * string) :=
  match text with
  | EmptyString => []
  | String _ text' =>
      match skip with
      | S k => finditer k text'
      | O =>
          match TRACE_CALL_RE_match text with
          | Some (func, digits, rest) =>
              (func, digits)
              :: finditer (String.length text - String.length rest - 1) text'
          | None => finditer 0 text'
          end
      end
  end.

Definition digit_value (c : ascii) : Z := (Z.of_nat (code c) - 48)%Z.

Fixpoint int_from (acc : Z) (digits : string) : Z :=
  match digits with
  | EmptyString => acc
  | String c digits' => int_from (10 * acc + digit_value c)%Z digits'
  end.

(** [int(digits)] for a string of decimal digits, as group 3 is:
    CPython refuses a numeral of more than 4300 digits with a
    ValueError ([None]). *)
Definition int (digits : string) : option Z :=
  if 4300 <? String.length digits then None else Some (int_from 0 digits).

(** Body of the loop of [parse_instrumented_file]. *)
Definition entry_of (m : string * string) : option dict :=
  let func := m.1 in
  line ← int m.2;
  Some [("function", JStr func); ("line", JInt line)].

(** [parse_instrumented_file], from the text read from the file. *)
Definition parse_instrumented_file (text : string) : option (list dict) :=
  mapM entry_of (finditer 0 text).

End ExecutionTrace.


(** ** Notions used to state the properties *)

Section Notions.
Import Py.

(** The name [canonicalize_entry] classifies: [func_norm] in the source. *)
Definition func_norm (entry : dict) : string :=
  strip (str (or_ (get entry "function") (or_ (get entry "event") (JStr "")))).

(** The rules of [canonicalize_entry] on a normalised name. *)
Definition classify (name : string) : string :=
  if is_Some_dec (FourthIteration.OBFUSCATOR_NAME_PATTERN_match name)
  then "OBFUSCATOR_WRAPPER"
  else
    let lower := lower name in
    if contains "process.on" lower
       || in_tuple lower ["data_handler"; "data"; "handler"; "ondata"; "on_data"]
    then "HANDLER"
    else if in_tuple lower ["global"; "<module>"; "root"] then "GLOBAL"
    else if contains "parseint" lower || contains "parse_int" lower then "PARSE_INT"
    else if contains "to_string" lower || contains "tostring" lower then "TO_STRING"
    else if contains "console" lower || contains "log" lower then "CONSOLE_LOG"
    else if startswith lower "anonymous" || startswith lower "<anonymous>" then "ANON_FN"
    else
      let cleaned := FourthIteration.sub_non_word name in
      "FN:" +:+ (if String.eqb cleaned "" then "FN_UNKNOWN" else cleaned).

(** The closed vocabulary of the canonicaliser. *)
Definition vocabulary : list string :=
  ["OBFUSCATOR_WRAPPER"; "HANDLER"; "GLOBAL"; "PARSE_INT"; "TO_STRING";
   "CONSOLE_LOG"; "ANON_FN"].

(** A name is wrapper-shaped when the obfuscator pattern matches it. *)
Definition wrapper_shaped (s : string) : Prop :=
  is_Some (FourthIteration.OBFUSCATOR_NAME_PATTERN_match s).

(** No character of [p] is white space. *)
Fixpoint no_space (p : string) : Prop :=
  match p with
  | EmptyString => True
  | String a p' => isspace a = false ∧ no_space p'
  end.



(** The floor of the similarity engine: two empty sequences score 1, an
    empty one against a non-empty one scores 0. *)
Definition floor_rule (ta tb : list string) (score : Q) : Prop :=
  (ta = [] → tb = [] → score = 1%Q) ∧
  (ta = [] → tb ≠ [] → score = 0%Q) ∧
  (ta ≠ [] → tb = [] → score = 0%Q).


End Notions.

(** ** A concrete program case

    The original times out; the obfuscated variant runs and writes the
    one-record trace [[{"function": "_0xabc123"}]] to stderr; there is
    no deobfuscated file.  Paths are [true] for the original and [false]
    for the obfuscated file. *)

Section Demo.
Import Py.

Definition dq : string := String (ascii_of_nat 34) EmptyString.

Definition demo_line : string :=
  "[{" +:+ dq +:+ "function" +:+ dq +:+ ": " +:+ dq +:+ "_0xabc123" +:+ dq +:+ "}]".

(** [json.loads] on the one line the case decodes. *)
Definition demo_json_loads (line : string) : option json :=
  if String.eqb line demo_line
  then Some (JList [JDict [("function", JStr "_0xabc123")]])
  else None.




End Demo.

(** The score the specification gives: 1 for two empty sequences, 0 when
    exactly one is empty, otherwise the LCS length [l] over the length of
    the longer sequence. *)
Definition expected_similarity {A : Type} (seq1 seq2 : list A) (l : nat) : Q :=
  match seq1, seq2 with
  | [], [] => 1
  | [], _ :: _ | _ :: _, [] => 0
  | _ :: _, _ :: _ => Z.of_nat l # Pos.of_nat (length seq1 `max` length seq2)
  end.

(** ** Loop invariants of the dynamic programs *)

Section Invariants.
Context {A : Type} `{EqDecision A}.
Variables (seq1 seq2 : list A).

(** A row of [len(seq2) + 1] cells whose cells [0..k] hold row [i] of the
    recurrence. *)
Definition row_upto (i k : nat) (row : list nat) : Prop :=
  length row = length seq2 + 1 ∧
  ∀ j, j ≤ k → row !! j = Some (lcs_table seq1 seq2 i j).

(** A table of [len(seq1) + 1] rows: the rows above [i] are complete, row
    [i] is filled up to column [k], the rows below still hold their zero
    column. *)
Definition table_upto (i k : nat) (dp : list (list nat)) : Prop :=
  length dp = length seq1 + 1 ∧
  (∀ i', i' < i → ∃ row, dp !! i' = Some row ∧ row_upto i' (length seq2) row) ∧
  (∃ row, dp !! i = Some row ∧ row_upto i k row) ∧
  (∀ i', i < i' ≤ length seq1 → ∃ row, dp !! i' = Some row ∧ row_upto i' 0 row).
End Invariants.

(** ** Notions used by the further properties *)

(** The part of a token before its first [@]: a token without its line
    suffix. *)
Fixpoint before_at (s : string) : string :=
  match s with
  | EmptyString => EmptyString
  | String c s' => if Ascii.eqb c "@" then EmptyString else String c (before_at s')
  end.

(** Every character of [s] is in [[0-9a-zA-Z_]]. *)
Fixpoint all_word (s : string) : bool :=
  match s with
  | EmptyString => true
  | String c s' => FourthIteration.is_word c && all_word s'
  end.

(** ** Run summary

    The statistics block at the end of [main], the same in the three
    iterations.  A float is the exact rational, as for the scores. *)

Module Summary.
Import Py.


Definition pair_keys : list string :=
  ["original_vs_obfuscated"; "obfuscated_vs_deobfuscated"; "deobfuscated_vs_original"].









End Summary.

(** A report that holds the three pair keys, each with a score between
    0 and 1. *)
Definition full_report (r : gmap string FourthIteration.report_value) : Prop :=
  Forall (λ k, ∃ q : Q, r !! k = Some (FourthIteration.RSimilarity q)
                        ∧ (0 <= q)%Q ∧ (q <= 1)%Q)
    Summary.pair_keys.

(** ** Notions for the instrumenter *)

(** The states of the loop of [instrument] after each of the lines [ls],
    starting from [st]. *)
Fixpoint instrument_states (lines : list string) (st : FirstIteration.instrument_state)
    (ls : list string) : list FirstIteration.instrument_state :=
  match ls with
  | [] => []
  | l :: ls' =>
      let st' := FirstIteration.instrument_line lines st l in
      st' :: instrument_states lines st' ls'
  end.

(** The text made of the prologue, each line preceded by a probe with
    its label and its 1-based number when the line is significant, and
    the epilogue. *)
Definition instrumented_with (labels lines : list string) : string :=
  Py.join (String Py.lf EmptyString)
    (FirstIteration.header
     ++ concat (imap (λ i '(label, line),
                        (if FirstIteration.significant line
                         then [FirstIteration.trace_point label (i + 1)] else [])
                        ++ [line])
                  (zip labels lines))
     ++ FirstIteration.footer).

Fixpoint all_chars (cls : ascii → bool) (s : string) : bool :=
  match s with
  | EmptyString => true
  | String c s' => cls c && all_chars cls s'
  end.

(** A character that cannot end or escape a JavaScript string literal:
    not a double quote, a backslash, a line feed or a carriage return. *)
Definition literal_safe (c : ascii) : bool :=
  let n := Py.code c in
  negb ((n =? 34) || (n =? 92) || (n =? 10) || (n =? 13)).

(** The braces a line opens minus those it closes, and the balance of a
    list of lines. *)
Definition brace_delta (line : string) : Z :=
  (Z.of_nat (Py.count line "{") - Z.of_nat (Py.count line "}"))%Z.

Definition brace_balance (ls : list string) : Z :=
  foldr (λ line b, (brace_delta line + b)%Z) 0%Z ls.

(** What a line of stderr gives the first iteration: the array it
    decodes to, when it is not blank and decodes (unstripped) to an
    array of any values. *)
Definition array_line (json_loads : string → option Py.json) (line : string)
  : option (list Py.json) :=
  if String.eqb (Py.strip line) "" then None
  else match json_loads line with
       | Some (Py.JList parsed) => Some parsed
       | _ => None
       end.

(** The groups that the probes of the instrumented text hold: for each
    significant line its label and the numeral of its 1-based number. *)
Definition probes (labels lines : list string) : list (string * string) :=
  concat (imap (λ i '(label, line),
                  if FirstIteration.significant line
                  then [(label, Py.str_int (Z.of_nat (i + 1)))] else [])
            (zip labels lines)).

(** The same as the records [parse_instrumented_file] builds. *)
Definition probe_records (labels lines : list string) : list Py.dict :=
  concat (imap (λ i '(label, line),
                  if FirstIteration.significant line
                  then [[("function", Py.JStr label);
                         ("line", Py.JInt (Z.of_nat (i + 1)))]] else [])
            (zip labels lines)).

(** * Properties *)

Import Py.

(** ** Loops *)

Lemma for_each_app {St I : Type} (body : St → I → option St) (s : St) (xs ys : list I) :
  for_each body s (xs ++ ys) = for_each body s xs ≫= λ s', for_each body s' ys.
Proof.
  revert s. induction xs as [|x xs IH]; intros s; simpl; [done|].
  destruct (body s x) as [s'|]; simpl; [apply IH|done].
Qed.

Lemma for_each_ext {St I : Type} (f g : St → I → option St) (s : St) (xs : list I) :
  (∀ s x, f s x = g s x) → for_each f s xs = for_each g s xs.
Proof.
  intros Hfg. revert s. induction xs as [|x xs IH]; intros s; simpl; [done|].
  rewrite Hfg. destruct (g s x); simpl; auto.
Qed.

(** A loop over [range(a, a + n)] that keeps an invariant indexed by the
    number of rounds done returns, and the invariant holds at the end. *)
Lemma for_each_range_inv {St : Type} (body : St → nat → option St)
    (P : nat → St → Prop) (s0 : St) (a n : nat) :
  P 0 s0 →
  (∀ k s, k < n → P k s → ∃ s', body s (a + k) = Some s' ∧ P (k + 1) s') →
  ∃ s', for_each body s0 (seq a n) = Some s' ∧ P n s'.
Proof.
  intros H0 Hstep. induction n as [|n IH].
  - exists s0. done.
  - destruct IH as (s & Hs & HP).
    { intros k s Hk. apply Hstep. lia. }
    destruct (Hstep n s) as (s' & Hs' & HP'); [lia|done|].
    exists s'. rewrite seq_S, for_each_app, Hs. simpl. rewrite Hs'.
    replace (S n) with (n + 1) by lia. done.
Qed.

Lemma range_1 (n : nat) : range 1 (n + 1) = seq 1 n.
Proof. unfold range. f_equal. lia. Qed.

Lemma setitem_Some {A : Type} (l : list A) (i : nat) (x : A) :
  i < length l → setitem l i x = Some (<[i:=x]> l).
Proof. intros Hi. unfold setitem. by rewrite decide_True. Qed.

(** ** The recurrence *)

Section RecurrenceFacts.
Context {A : Type} `{EqDecision A}.
Implicit Types (sa sb : list A).

Lemma lcs_table_0_l sa sb j : lcs_table sa sb 0 j = 0.
Proof. done. Qed.

Lemma lcs_table_0_r sa sb i : lcs_table sa sb i 0 = 0.
Proof. by destruct i. Qed.

Lemma lcs_table_succ sa sb i j :
  lcs_table sa sb (S i) (S j) =
  match sa !! i, sb !! j with
  | Some a, Some b =>
      if decide (a = b) then lcs_table sa sb i j + 1
      else lcs_table sa sb i (S j) `max` lcs_table sa sb (S i) j
  | _, _ => 0
  end.
Proof. done. Qed.

Lemma lcs_table_sym sa sb i j : lcs_table sa sb i j = lcs_table sb sa j i.
Proof.
  revert j. induction i as [|i IHi]; intros j.
  - by rewrite lcs_table_0_l, lcs_table_0_r.
  - induction j as [|j IHj].
    + by rewrite lcs_table_0_l, lcs_table_0_r.
    + rewrite !lcs_table_succ.
      destruct (sa !! i) as [a|], (sb !! j) as [b|]; try done.
      rewrite IHj, !IHi.
      destruct (decide (a = b)) as [->|Hab].
      * by rewrite decide_True.
      * rewrite decide_False by congruence. lia.
Qed.

Lemma lcs_table_le sa sb i j : lcs_table sa sb i j ≤ i `min` j.
Proof.
  revert j. induction i as [|i IHi]; intros j.
  - rewrite lcs_table_0_l. lia.
  - induction j as [|j IHj].
    + rewrite lcs_table_0_r. lia.
    + rewrite lcs_table_succ.
      destruct (sa !! i) as [a|], (sb !! j) as [b|]; try lia.
      pose proof (IHi j). pose proof (IHi (S j)).
      destruct (decide (a = b)); lia.
Qed.
End RecurrenceFacts.


(** The recurrence is the length of a longest common subsequence of the
    two prefixes. *)
Section Longest.
Context {A : Type} `{EqDecision A}.
Implicit Types (sa sb c : list A).

Lemma sublist_snoc_r c (k : list A) (x : A) :
  c `sublist_of` k ++ [x] ↔ c `sublist_of` k ∨ ∃ c', c = c' ++ [x] ∧ c' `sublist_of` k.
Proof.
  rewrite sublist_app_cons_r, app_nil_r. split; (intros [Hc|Hc]; [by left|right]).
  - destruct Hc as (c1 & c2 & -> & Hc1 & ->%sublist_nil_r). by exists c1.
  - destruct Hc as (c' & -> & Hc'). exists c', []. by split.
Qed.

Lemma sublist_snoc_drop c (k : list A) (x y : A) :
  c ++ [x] `sublist_of` k ++ [y] → c `sublist_of` k.
Proof.
  rewrite sublist_snoc_r. intros [Hc|(c' & Heq & Hc')].
  - etrans; [|done]. by apply sublist_inserts_r.
  - by apply app_inj_tail in Heq as [-> _].
Qed.

Lemma lcs_table_attained sa sb (i j : nat) :
  i ≤ length sa → j ≤ length sb →
  ∃ c, c `sublist_of` take i sa ∧ c `sublist_of` take j sb
       ∧ length c = lcs_table sa sb i j.
Proof.
  revert j. induction i as [|i IHi]; intros j Hi Hj.
  { exists []. rewrite lcs_table_0_l. repeat split; apply sublist_nil_l. }
  induction j as [|j IHj].
  { exists []. rewrite lcs_table_0_r. repeat split; apply sublist_nil_l. }
  destruct (lookup_lt_is_Some_2 sa i) as [a Ha]; [lia|].
  destruct (lookup_lt_is_Some_2 sb j) as [b Hb]; [lia|].
  rewrite lcs_table_succ, Ha, Hb, (take_S_r sa i a), (take_S_r sb j b) by done.
  destruct (decide (a = b)) as [->|Hab].
  - destruct (IHi j) as (c & Hca & Hcb & Hlen); [lia..|].
    exists (c ++ [b]). rewrite length_app, Hlen. simpl.
    repeat split; by apply sublist_app.
  - destruct (Nat.max_spec (lcs_table sa sb i (S j)) (lcs_table sa sb (S i) j))
      as [[_ ->]|[_ ->]].
    + destruct IHj as (c & Hca & Hcb & Hlen); [lia|].
      rewrite (take_S_r sa i a) in Hca by done.
      exists c. repeat split; [done| |done]. by apply sublist_inserts_r.
    + destruct (IHi (S j)) as (c & Hca & Hcb & Hlen); [lia..|].
      rewrite (take_S_r sb j b) in Hcb by done.
      exists c. repeat split; [|done..]. by apply sublist_inserts_r.
Qed.

Lemma lcs_table_upper sa sb (i j : nat) c :
  i ≤ length sa → j ≤ length sb →
  c `sublist_of` take i sa → c `sublist_of` take j sb →
  length c ≤ lcs_table sa sb i j.
Proof.
  revert j c. induction i as [|i IHi]; intros j c Hi Hj.
  { intros ->%sublist_nil_r _. simpl. lia. }
  revert c. induction j as [|j IHj]; intros c.
  { intros _ ->%sublist_nil_r. simpl. lia. }
  destruct (lookup_lt_is_Some_2 sa i) as [a Ha]; [lia|].
  destruct (lookup_lt_is_Some_2 sb j) as [b Hb]; [lia|].
  rewrite lcs_table_succ, Ha, Hb.
  intros Hca Hcb.
  destruct (decide (a = b)) as [->|Hab].
  - destruct c as [|x c _] using rev_ind; [simpl; lia|].
    rewrite (take_S_r sa i b) in Hca by done.
    rewrite (take_S_r sb j b) in Hcb by done.
    apply sublist_snoc_drop in Hca, Hcb.
    rewrite length_app. simpl.
    pose proof (IHi j c ltac:(lia) ltac:(lia) Hca Hcb). lia.
  - pose proof Hca as Hca'. pose proof Hcb as Hcb'.
    rewrite (take_S_r sa i a), sublist_snoc_r in Hca' by done.
    rewrite (take_S_r sb j b), sublist_snoc_r in Hcb' by done.
    destruct Hca' as [Hc|(c1 & -> & Hc1)].
    { pose proof (IHi (S j) c ltac:(lia) ltac:(lia) Hc Hcb). lia. }
    destruct Hcb' as [Hc|(c2 & Heq & Hc2)].
    { pose proof (IHj ltac:(lia) (c1 ++ [a]) Hca Hc). lia. }
    apply app_inj_tail in Heq as [_ ?]. done.
Qed.
End Longest.

#[global] Opaque lcs_table.

(** ** The two-row program computes the recurrence *)

Section TwoRows.
Context {A : Type} `{EqDecision A}.
Variables (seq1 seq2 : list A).

Lemma row_upto_zero (i k : nat) :
  k ≤ length seq2 → (i = 0 ∨ k = 0) →
  row_upto seq1 seq2 i k (replicate (length seq2 + 1) 0).
Proof.
  intros Hk Hik. split; [by rewrite length_replicate|].
  intros j Hj. rewrite lookup_replicate_2 by lia. f_equal.
  destruct Hik as [->| ->]; [done|].
  replace j with 0 by lia. by rewrite lcs_table_0_r.
Qed.

Lemma row_upto_insert (i k v : nat) (cur : list nat) :
  k < length seq2 →
  row_upto seq1 seq2 i k cur →
  v = lcs_table seq1 seq2 i (S k) →
  row_upto seq1 seq2 i (k + 1) (<[S k:=v]> cur).
Proof.
  intros Hk [Hlen Hcur] ->. split; [by rewrite length_insert|].
  intros j Hj. destruct (decide (j = S k)) as [->|Hne].
  - rewrite list_lookup_insert_eq by lia. done.
  - rewrite list_lookup_insert_ne by done. apply Hcur. lia.
Qed.

Lemma fourth_lcs_cell_step (i k : nat) (a : A) (prev cur : list nat) :
  seq1 !! i = Some a →
  k < length seq2 →
  row_upto seq1 seq2 i (length seq2) prev →
  row_upto seq1 seq2 (S i) k cur →
  ∃ cur', FourthIteration.lcs_cell a seq2 prev cur (1 + k) = Some cur'
          ∧ row_upto seq1 seq2 (S i) (k + 1) cur'.
Proof.
  intros Ha Hk Hprev Hcur.
  destruct (lookup_lt_is_Some_2 seq2 k Hk) as [b Hb].
  pose proof (lcs_table_succ seq1 seq2 i k) as Heq. rewrite Ha, Hb in Heq.
  unfold FourthIteration.lcs_cell, getitem.
  replace (1 + k - 1) with k by lia. rewrite Hb. simpl.
  destruct Hprev as [Hplen Hprev]. pose proof Hcur as [Hclen Hcur'].
  destruct (decide (a = b)) as [Hab|Hab].
  - rewrite (Hprev k) by lia. simpl. rewrite setitem_Some by lia.
    eexists. split; [done|]. by apply row_upto_insert.
  - rewrite (Hprev (S k)) by lia. simpl. rewrite (Hcur' k) by lia. simpl.
    rewrite setitem_Some by lia.
    eexists. split; [done|]. by apply row_upto_insert.
Qed.

Lemma fourth_lcs_row_step (i : nat) (prev : list nat) :
  i < length seq1 →
  row_upto seq1 seq2 i (length seq2) prev →
  ∃ cur, FourthIteration.lcs_row seq1 seq2 (length seq2) prev (1 + i) = Some cur
         ∧ row_upto seq1 seq2 (i + 1) (length seq2) cur.
Proof.
  intros Hi Hprev.
  destruct (lookup_lt_is_Some_2 seq1 i Hi) as [a Ha].
  unfold FourthIteration.lcs_row, getitem.
  replace (1 + i - 1) with i by lia. rewrite Ha. simpl. rewrite range_1.
  replace (i + 1) with (S i) by lia.
  apply (for_each_range_inv _ (λ k cur, row_upto seq1 seq2 (S i) k cur)).
  - apply row_upto_zero; [lia|by right].
  - intros k cur Hk Hcur. by apply fourth_lcs_cell_step.
Qed.

Lemma fourth_lcs_length_table :
  FourthIteration.lcs_length seq1 seq2
  = Some (lcs_table seq1 seq2 (length seq1) (length seq2)).
Proof.
  unfold FourthIteration.lcs_length.
  destruct (decide (length seq1 = 0 ∨ length seq2 = 0)) as [[->| ->]|_].
  - by rewrite lcs_table_0_l.
  - by rewrite lcs_table_0_r.
  - rewrite range_1.
    destruct (for_each_range_inv (FourthIteration.lcs_row seq1 seq2 (length seq2))
                (λ i row, row_upto seq1 seq2 i (length seq2) row)
                (replicate (length seq2 + 1) 0) 1 (length seq1))
      as (prev & -> & _ & Hprev).
    + apply row_upto_zero; [lia|by left].
    + intros i prev Hi Hprev. by apply fourth_lcs_row_step.
    + simpl. unfold getitem. by apply Hprev.
Qed.

(** [lcs_length] returns the length of a longest common subsequence. *)
Lemma fourth_lcs_length_longest :
  ∃ l : nat,
    FourthIteration.lcs_length seq1 seq2 = Some l
    ∧ (∃ c, c `sublist_of` seq1 ∧ c `sublist_of` seq2 ∧ length c = l)
    ∧ ∀ c, c `sublist_of` seq1 → c `sublist_of` seq2 → length c ≤ l.
Proof.
  eexists. split; [apply fourth_lcs_length_table|].
  pose proof (lcs_table_attained seq1 seq2 (length seq1) (length seq2)) as Hex.
  pose proof (lcs_table_upper seq1 seq2 (length seq1) (length seq2)) as Hup.
  rewrite !firstn_all in Hex. split; [by apply Hex|].
  intros c Hc1 Hc2. specialize (Hup c). rewrite !firstn_all in Hup. by apply Hup.
Qed.

Lemma second_lcs_cell_eq (a : A) (prev cur : list nat) (j : nat) :
  SecondIteration.lcs_cell a seq2 prev cur j = FourthIteration.lcs_cell a seq2 prev cur j.
Proof.
  unfold SecondIteration.lcs_cell, FourthIteration.lcs_cell.
  destruct (getitem seq2 (j - 1)) as [b|]; simpl; [|done].
  destruct (decide (a = b)); [done|].
  destruct (getitem prev j) as [p|]; simpl; [|done].
  destruct (getitem cur (j - 1)) as [c|]; simpl; [|done].
  f_equal. destruct (Nat.leb_spec c p); lia.
Qed.

Lemma second_lcs_length_eq :
  SecondIteration.lcs_length seq1 seq2 = FourthIteration.lcs_length seq1 seq2.
Proof.
  unfold SecondIteration.lcs_length, FourthIteration.lcs_length.
  destruct (decide _); [done|]. f_equal.
  apply for_each_ext. intros prev i.
  unfold SecondIteration.lcs_row, FourthIteration.lcs_row.
  destruct (getitem seq1 (i - 1)); simpl; [|done].
  apply for_each_ext. intros. apply second_lcs_cell_eq.
Qed.
End TwoRows.

(** ** The full-table program computes the recurrence *)

Section FullTable.
Context {A : Type} `{EqDecision A}.
Variables (seq1 seq2 : list A).

Lemma table_upto_init :
  table_upto seq1 seq2 0 (length seq2)
    (replicate (length seq1 + 1) (replicate (length seq2 + 1) 0)).
Proof.
  split; [by rewrite length_replicate|]. split; [intros i' Hi'; lia|]. split.
  - eexists. split; [apply lookup_replicate_2; lia|].
    apply row_upto_zero; [lia|by left].
  - intros i' Hi'. eexists. split; [apply lookup_replicate_2; lia|].
    apply row_upto_zero; [lia|by right].
Qed.

Lemma table_upto_next_row (i : nat) (dp : list (list nat)) :
  i < length seq1 →
  table_upto seq1 seq2 i (length seq2) dp →
  table_upto seq1 seq2 (S i) 0 dp.
Proof.
  intros Hi (Hlen & Habove & Hrow & Hbelow). split; [done|]. split; [|split].
  - intros i' Hi'. destruct (decide (i' = i)) as [->|Hne]; [done|].
    apply Habove. lia.
  - apply Hbelow. lia.
  - intros i' Hi'. apply Hbelow. lia.
Qed.

Lemma table_upto_get (i k j : nat) (dp : list (list nat)) :
  table_upto seq1 seq2 (S i) k dp → j ≤ length seq2 →
  FirstIteration.get_cell dp i j = Some (lcs_table seq1 seq2 i j).
Proof.
  intros (_ & Habove & _) Hj.
  destruct (Habove i) as (row & Hrow & _ & Hcells); [lia|].
  unfold FirstIteration.get_cell, getitem. rewrite Hrow. simpl. by apply Hcells.
Qed.

Lemma table_upto_set (i k v : nat) (dp : list (list nat)) :
  i ≤ length seq1 → k < length seq2 →
  table_upto seq1 seq2 i k dp →
  v = lcs_table seq1 seq2 i (S k) →
  ∃ dp', FirstIteration.set_cell dp i (S k) v = Some dp'
         ∧ table_upto seq1 seq2 i (k + 1) dp'.
Proof.
  intros Hi Hk (Hlen & Habove & (row & Hrow & Hcur) & Hbelow) Hv.
  unfold FirstIteration.set_cell, getitem. rewrite Hrow. simpl.
  pose proof Hcur as [Hrlen _].
  rewrite setitem_Some by lia. simpl. rewrite setitem_Some by lia.
  eexists. split; [done|].
  split; [by rewrite length_insert|]. split; [|split].
  - intros i' Hi'. rewrite list_lookup_insert_ne by lia. by apply Habove.
  - eexists. split; [apply list_lookup_insert_eq; lia|].
    by apply row_upto_insert.
  - intros i' Hi'. rewrite list_lookup_insert_ne by lia. by apply Hbelow.
Qed.

Lemma first_lcs_cell_step (i k : nat) (dp : list (list nat)) :
  i < length seq1 → k < length seq2 →
  table_upto seq1 seq2 (S i) k dp →
  ∃ dp', FirstIteration.lcs_cell seq1 seq2 (1 + i) dp (1 + k) = Some dp'
         ∧ table_upto seq1 seq2 (S i) (k + 1) dp'.
Proof.
  intros Hi Hk Hdp.
  destruct (lookup_lt_is_Some_2 seq1 i Hi) as [a Ha].
  destruct (lookup_lt_is_Some_2 seq2 k Hk) as [b Hb].
  pose proof (lcs_table_succ seq1 seq2 i k) as Heq. rewrite Ha, Hb in Heq.
  unfold FirstIteration.lcs_cell, getitem.
  replace (1 + i - 1) with i by lia. replace (1 + k - 1) with k by lia.
  rewrite Ha, Hb. simpl.
  destruct (decide (a = b)) as [Hab|Hab].
  - rewrite (table_upto_get i k k dp) by (done || lia). simpl.
    apply table_upto_set; (done || lia).
  - rewrite (table_upto_get i k (S k) dp) by (done || lia). simpl.
    destruct Hdp as (Hlen & Habove & (row & Hrow & Hrlen & Hcells) & Hbelow).
    unfold FirstIteration.get_cell at 1, getitem. rewrite Hrow. simpl.
    rewrite (Hcells k) by lia. simpl.
    apply table_upto_set; [lia|done| |done].
    split; [done|]. split; [done|]. split; [|done]. by exists row.
Qed.

Lemma first_lcs_row_step (i : nat) (dp : list (list nat)) :
  i < length seq1 →
  table_upto seq1 seq2 i (length seq2) dp →
  ∃ dp', FirstIteration.lcs_row seq1 seq2 (length seq2) dp (1 + i) = Some dp'
         ∧ table_upto seq1 seq2 (i + 1) (length seq2) dp'.
Proof.
  intros Hi Hdp. unfold FirstIteration.lcs_row. rewrite range_1.
  replace (i + 1) with (S i) by lia.
  apply (for_each_range_inv _ (λ k dp, table_upto seq1 seq2 (S i) k dp)).
  - by apply table_upto_next_row.
  - intros k dp' Hk Hdp'. by apply first_lcs_cell_step.
Qed.

Lemma first_lcs_table :
  FirstIteration._lcs seq1 seq2
  = Some (lcs_table seq1 seq2 (length seq1) (length seq2)).
Proof.
  unfold FirstIteration._lcs. rewrite range_1.
  destruct (for_each_range_inv (FirstIteration.lcs_row seq1 seq2 (length seq2))
              (λ i dp, table_upto seq1 seq2 i (length seq2) dp)
              (replicate (length seq1 + 1) (replicate (length seq2 + 1) 0))
              1 (length seq1))
    as (dp & -> & _ & _ & (row & Hrow & _ & Hcells) & _).
  - apply table_upto_init.
  - intros i dp Hi Hdp. by apply first_lcs_row_step.
  - simpl. unfold FirstIteration.get_cell, getitem. rewrite Hrow. simpl.
    by apply Hcells.
Qed.
End FullTable.

(** ** The similarity score *)

Lemma Zpos_of_nat (n : nat) : n ≠ 0 → Zpos (Pos.of_nat n) = Z.of_nat n.
Proof.
  intros Hn. by rewrite <- positive_nat_Z, Nat2Pos.id.
Qed.

Lemma ratio_bounds (l d : nat) :
  l ≤ d → d ≠ 0 → (0 <= Z.of_nat l # Pos.of_nat d)%Q ∧ (Z.of_nat l # Pos.of_nat d <= 1)%Q.
Proof.
  intros Hl Hd. unfold Qle. simpl. rewrite Zpos_of_nat by done. lia.
Qed.

Section Similarity.
Context {A : Type} `{EqDecision A}.
Implicit Types (sa sb : list A).

Lemma fourth_similarity_value sa sb :
  FourthIteration.similarity_lcs sa sb
  = Some (expected_similarity sa sb (lcs_table sa sb (length sa) (length sb))).
Proof.
  unfold FourthIteration.similarity_lcs.
  destruct (decide (sa = [] ∧ sb = [])) as [[-> ->]|Hboth]; [done|].
  destruct (decide (sa = [] ∨ sb = [])) as [Hone|Hnone].
  - destruct sa, sb; simpl; try done.
    + exfalso. apply Hboth. done.
    + by destruct Hone.
  - rewrite fourth_lcs_length_table.
    destruct sa, sb; simpl; try done; exfalso; apply Hnone; auto.
Qed.

Lemma second_similarity_eq sa sb :
  SecondIteration.similarity_lcs sa sb = FourthIteration.similarity_lcs sa sb.
Proof.
  unfold SecondIteration.similarity_lcs, FourthIteration.similarity_lcs.
  destruct (decide _); [done|]. destruct (decide _) as [|Hne]; [done|].
  rewrite second_lcs_length_eq.
  destruct (FourthIteration.lcs_length sa sb); simpl; [|done].
  assert (length sa `max` length sb ≠ 0) as Hmax.
  { destruct sa; simpl; [|lia]. exfalso. apply Hne. by left. }
  destruct (Nat.ltb_spec 0 (length sa `max` length sb)); [done|lia].
Qed.

Lemma expected_similarity_bounds sa sb (l : nat) :
  l ≤ length sa `min` length sb →
  (0 <= expected_similarity sa sb l)%Q ∧ (expected_similarity sa sb l <= 1)%Q.
Proof.
  intros Hl. destruct sa as [|a sa], sb as [|b sb]; simpl; try done.
  apply ratio_bounds; simpl in *; lia.
Qed.

Lemma expected_similarity_sym sa sb (l : nat) :
  expected_similarity sa sb l = expected_similarity sb sa l.
Proof.
  destruct sa as [|a sa], sb as [|b sb]; simpl; try done.
  by rewrite (Nat.max_comm (length sb)).
Qed.
End Similarity.

(** C1. For all token sequences the similarity is 1 when both are empty,
    0 when exactly one is empty, and otherwise the LCS length divided by
    the length of the longer sequence, a value between 0 and 1; this
    holds for [similarity_lcs] of the fourth and of the second
    iteration, and both return. *)
Theorem similarity_lcs_cases (seqA seqB : list string) :
  ∃ l : nat,
    FourthIteration.lcs_length seqA seqB = Some l ∧
    SecondIteration.lcs_length seqA seqB = Some l ∧
    let expected :=
      match seqA, seqB with
      | [], [] => 1%Q
      | [], _ :: _ | _ :: _, [] => 0%Q
      | _ :: _, _ :: _ => Z.of_nat l # Pos.of_nat (length seqA `max` length seqB)
      end in
    FourthIteration.similarity_lcs seqA seqB = Some expected ∧
    SecondIteration.similarity_lcs seqA seqB = Some expected ∧
    (0 <= expected)%Q ∧ (expected <= 1)%Q.
Proof.
  exists (lcs_table seqA seqB (length seqA) (length seqB)).
  rewrite second_lcs_length_eq, second_similarity_eq, fourth_lcs_length_table,
    fourth_similarity_value.
  repeat split; try done;
    apply expected_similarity_bounds, lcs_table_le.
Qed.

(** C7. The similarity is symmetric: both orders return the same score. *)
Theorem similarity_lcs_symmetric (seqA seqB : list string) :
  ∃ s : Q,
    FourthIteration.similarity_lcs seqA seqB = Some s ∧
    FourthIteration.similarity_lcs seqB seqA = Some s.
Proof.
  eexists. split; [apply fourth_similarity_value|].
  rewrite fourth_similarity_value. f_equal.
  by rewrite expected_similarity_sym, lcs_table_sym.
Qed.

(** C8. The LCS length is at most the length of the shorter sequence, and
    the similarity lies between 0 and 1. *)
Theorem lcs_length_bound_and_similarity_range (seqA seqB : list string) :
  ∃ (l : nat) (s : Q),
    FourthIteration.lcs_length seqA seqB = Some l ∧
    l ≤ length seqA `min` length seqB ∧
    FourthIteration.similarity_lcs seqA seqB = Some s ∧
    (0 <= s)%Q ∧ (s <= 1)%Q.
Proof.
  eexists _, _. split; [apply fourth_lcs_length_table|].
  split; [apply lcs_table_le|].
  split; [apply fourth_similarity_value|].
  apply expected_similarity_bounds, lcs_table_le.
Qed.

(** C9. The two-row [lcs_length] returns exactly what the full-table
    program [_lcs] of the first iteration returns, and both return. *)
Theorem lcs_length_equals_full_table (seqA seqB : list string) :
  ∃ l : nat,
    FirstIteration._lcs seqA seqB = Some l ∧
    FourthIteration.lcs_length seqA seqB = Some l ∧
    SecondIteration.lcs_length seqA seqB = Some l.
Proof.
  eexists. split; [apply first_lcs_table|].
  rewrite second_lcs_length_eq. split; apply fourth_lcs_length_table.
Qed.

(** ** Characters and strings *)

Ltac each_char c := destruct c as [[] [] [] [] [] [] [] []]; vm_compute; reflexivity.






Lemma map_chars_empty (f : ascii → ascii) (s : string) :
  map_chars f s = "" ↔ s = "".
Proof. by destruct s. Qed.









(** ** The obfuscator pattern *)

Lemma wrapper_shaped_iff (s : string) :
  wrapper_shaped s ↔
  is_Some (FourthIteration.re_lit "a0_0x" s)
  ∨ is_Some (FourthIteration.re_lit "_0x" s)
  ∨ is_Some (FourthIteration.re_lit "0x" s).
Proof.
  unfold wrapper_shaped, FourthIteration.OBFUSCATOR_NAME_PATTERN_match.
  destruct (FourthIteration.re_lit "a0_0x" s) as [r|].
  { split; intros _; [left|]; by eexists. }
  destruct (FourthIteration.re_lit "_0x" s) as [r|].
  { split; intros _; [right; left|]; by eexists. }
  change (None ≫= FourthIteration.re_plus FourthIteration.is_hex_lower)
    with (@None string).
  destruct (FourthIteration.re_lit "0x" s) as [r|].
  { split; intros _; [right; right|]; by eexists. }
  split; [by intros [? ?]|]. by intros [[? ?]|[[? ?]|[? ?]]].
Qed.



Lemma re_lit_lstrip (a : ascii) (p s : string) :
  isspace a = false →
  is_Some (FourthIteration.re_lit (String a p) s) → lstrip s = s.
Proof.
  intros Ha. destruct s as [|b s]; simpl; [done|].
  destruct (Ascii.eqb_spec a b) as [->|]; [|by intros []].
  by rewrite Ha.
Qed.

Lemma re_lit_rstrip (p s : string) :
  no_space p →
  is_Some (FourthIteration.re_lit p s) →
  is_Some (FourthIteration.re_lit p (rstrip s)).
Proof.
  revert s. induction p as [|a p IH]; intros s Hp; simpl; [by eauto|].
  destruct s as [|b s]; simpl; [done|]. destruct Hp as [Ha Hp].
  destruct (Ascii.eqb_spec a b) as [<-|]; [|by intros []].
  intros Hs. specialize (IH s Hp Hs).
  destruct (rstrip s) as [|c r] eqn:Hr.
  - rewrite Ha. simpl. rewrite Ascii.eqb_refl.
    destruct p; [by eauto|]. simpl in IH. by destruct IH.
  - simpl. by rewrite Ascii.eqb_refl.
Qed.

Lemma re_lit_strip (a : ascii) (p s : string) :
  isspace a = false → no_space p →
  is_Some (FourthIteration.re_lit (String a p) s) →
  is_Some (FourthIteration.re_lit (String a p) (strip s)).
Proof.
  intros Ha Hp Hs. unfold strip. rewrite (re_lit_lstrip a p s Ha Hs).
  by apply re_lit_rstrip.
Qed.

Lemma wrapper_shaped_strip (s : string) : wrapper_shaped s → wrapper_shaped (strip s).
Proof.
  rewrite !wrapper_shaped_iff.
  intros [H|[H|H]]; apply re_lit_strip in H; auto; by vm_compute.
Qed.

(** ** The canonicaliser *)

Lemma canonicalize_entry_classify (entry : dict) :
  FourthIteration.canonicalize_entry entry = classify (func_norm entry).
Proof.
  unfold FourthIteration.canonicalize_entry, classify, func_norm, str.
  by destruct (or_ (get entry "function") (or_ (get entry "event") (JStr ""))).
Qed.

Lemma second_canonicalize_entry_eq (entry : dict) :
  SecondIteration.canonicalize_entry entry = FourthIteration.canonicalize_entry entry.
Proof.
  unfold SecondIteration.canonicalize_entry, FourthIteration.canonicalize_entry.
  destruct (is_Some_dec _); [done|].
  destruct (_ || _); [done|].
  unfold in_tuple. simpl existsb.
  rewrite (String.eqb_sym "global"), orb_false_r, orb_assoc. done.
Qed.

Lemma classify_wrapper (name : string) :
  wrapper_shaped name → classify name = "OBFUSCATOR_WRAPPER".
Proof. intros Hw. unfold classify. by destruct (is_Some_dec _). Qed.

Ltac split_rules tac :=
  repeat match goal with
         | |- context [if ?b then _ else _] =>
             lazymatch b with
             | is_Some_dec _ => fail
             | String.eqb _ _ => fail
             | _ => destruct b; [tac|]
             end
         end.

Lemma classify_shape (name : string) :
  classify name ∈ vocabulary ∨
  classify name
  = "FN:" +:+ (if String.eqb (FourthIteration.sub_non_word name) ""
               then "FN_UNKNOWN" else FourthIteration.sub_non_word name).
Proof.
  unfold classify, vocabulary.
  destruct (is_Some_dec _); [left; set_solver|].
  split_rules ltac:(left; set_solver).
  by right.
Qed.








(** C10. A record whose [function] is missing or falsy is tokenised from
    its [event] field, coerced by [str()], exactly as a record with that
    text as its function name; with no usable [event] either, the token
    is [FN:FN_UNKNOWN]. *)
Theorem canonicalize_entry_event_fallback (entry : dict) :
  truthy (get entry "function") = false →
  let name := str (or_ (get entry "event") (JStr "")) in
  FourthIteration.canonicalize_entry entry = classify (strip name) ∧
  FourthIteration.canonicalize_entry entry
  = FourthIteration.canonicalize_entry [("function", JStr name)] ∧
  SecondIteration.canonicalize_entry entry = FourthIteration.canonicalize_entry entry ∧
  (truthy (get entry "event") = false →
   FourthIteration.canonicalize_entry entry = "FN:FN_UNKNOWN").
Proof.
  intros Hf. cbv zeta.
  assert (func_norm entry = strip (str (or_ (get entry "event") (JStr "")))) as Hn.
  { unfold func_norm. unfold or_ at 1. by rewrite Hf. }
  rewrite !canonicalize_entry_classify, Hn.
  split; [done|]. split; [|split].
  - f_equal. unfold func_norm.
    change (get [("function", JStr ?s)] "function") with (JStr s).
    change (get [("function", JStr ?s)] "event") with JNull.
    set (name := str _). unfold or_ at 1. simpl truthy.
    destruct (String.eqb_spec name "") as [->|]; done.
  - rewrite second_canonicalize_entry_eq. by rewrite canonicalize_entry_classify, Hn.
  - intros He. unfold or_. by rewrite He.
Qed.

(** A record with only an [event] key is tokenised from it. *)
Lemma canonicalize_entry_event_fallback_witness :
  truthy (get [("event", JStr "data")] "function") = false
  ∧ FourthIteration.canonicalize_entry [("event", JStr "data")] = "HANDLER".
Proof.
  split; [reflexivity|].
  rewrite (proj1 (canonicalize_entry_event_fallback [("event", JStr "data")] eq_refl)).
  reflexivity.
Defined.

(** ** Dropping wrapper frames *)

Lemma wrapper_shaped_nonempty (s : string) : wrapper_shaped s → s ≠ "".
Proof. intros Hw ->. apply wrapper_shaped_iff in Hw as [[]|[[]|[]]]; done. Qed.

Lemma canonicalize_entry_wrapper (entry : dict) (s : string) :
  get entry "function" = JStr s → wrapper_shaped s →
  FourthIteration.canonicalize_entry entry = "OBFUSCATOR_WRAPPER".
Proof.
  intros Hf Hw. rewrite canonicalize_entry_classify. apply classify_wrapper.
  unfold func_norm. unfold or_ at 1. rewrite Hf. simpl truthy.
  pose proof (wrapper_shaped_nonempty s Hw) as Hne.
  apply String.eqb_neq in Hne. rewrite Hne.
  by apply wrapper_shaped_strip.
Qed.

Lemma canonicalize_step_wrapper (include_line : bool) (tokens : list string) (e : dict) :
  FourthIteration.canonicalize_entry e = "OBFUSCATOR_WRAPPER" →
  FourthIteration.canonicalize_step include_line tokens e = tokens.
Proof.
  intros He. unfold FourthIteration.canonicalize_step. rewrite He.
  destruct include_line; [|done].
  change (in_tuple "OBFUSCATOR_WRAPPER" ["OBFUSCATOR_WRAPPER"]) with true.
  by rewrite andb_false_r.
Qed.

Lemma round4_0 : round4 0 = 0%Q.
Proof. reflexivity. Qed.

Lemma round4_1 : round4 1 = 1%Q.
Proof. reflexivity. Qed.

(** C5. A trace whose records all carry a wrapper-shaped function name
    canonicalises to the empty sequence, with or without line numbers in
    the tokens, and scores 1 against the empty trace. *)
Theorem wrapper_only_trace_dropped (raw_trace : list dict) (include_line : bool) :
  Forall (λ e, ∃ s, get e "function" = JStr s ∧ wrapper_shaped s) raw_trace →
  FourthIteration.canonicalize_trace raw_trace include_line = [] ∧
  FourthIteration.similarity_lcs
    (FourthIteration.canonicalize_trace raw_trace include_line)
    (FourthIteration.canonicalize_trace [] include_line) = Some 1%Q ∧
  FourthIteration.similarity <$> FourthIteration.compute_pair include_line raw_trace []
  = Some 1%Q.
Proof.
  intros Hall.
  assert (∀ tokens, foldl (FourthIteration.canonicalize_step include_line) tokens raw_trace
                    = tokens) as Hdrop.
  { induction Hall as [|e es (s & Hf & Hw) _ IH]; intros tokens; [done|].
    simpl. rewrite canonicalize_step_wrapper; [apply IH|].
    by apply (canonicalize_entry_wrapper e s). }
  unfold FourthIteration.compute_pair, FourthIteration.canonicalize_trace.
  rewrite Hdrop. done.
Qed.

(** The trace of the specification's second scenario. *)
Lemma wrapper_only_trace_dropped_witness :
  FourthIteration.canonicalize_trace [[("function", JStr "_0xabc123")]] false = [].
Proof.
  apply (wrapper_only_trace_dropped [[("function", JStr "_0xabc123")]] false).
  repeat constructor. exists "_0xabc123". split; [reflexivity|].
  eexists. vm_compute. reflexivity.
Defined.

(** ** The trace parser *)

Section ParserFacts.
Variable json_loads : string → option json.







Lemma merge_traces_concat (trace_lists : list (list dict)) :
  FourthIteration.merge_traces trace_lists = concat trace_lists.
Proof.
  unfold FourthIteration.merge_traces.
  assert (∀ merged, foldl (λ merged t, merged ++ t) merged trace_lists
                    = merged ++ concat trace_lists) as Hgen; [|apply Hgen].
  induction trace_lists as [|t ts IH]; intros merged; simpl.
  - by rewrite app_nil_r.
  - by rewrite IH, app_assoc.
Qed.


(** The first iteration stops at the first line that decodes to a list,
    whatever follows. *)
Lemma first_iteration_one_shot (line : string) (rest : list string) (parsed : list json) :
  strip line ≠ "" → json_loads line = Some (JList parsed) →
  FirstIteration.first_list json_loads (line :: rest) = parsed.
Proof.
  intros Hne%String.eqb_neq Hline. simpl. by rewrite Hne, Hline.
Qed.
End ParserFacts.


(** ** The orchestrator *)

Lemma expected_similarity_floor (ta tb : list string) (l : nat) :
  floor_rule ta tb (round4 (expected_similarity ta tb l)).
Proof.
  unfold floor_rule. destruct ta, tb; simpl; repeat split; try done.
Qed.

Lemma compute_pair_similarity (include_line : bool) (traceA traceB : list dict) :
  let tokensA := FourthIteration.canonicalize_trace traceA include_line in
  let tokensB := FourthIteration.canonicalize_trace traceB include_line in
  ∃ q comp,
    FourthIteration.similarity_lcs tokensA tokensB = Some q
    ∧ FourthIteration.compute_pair include_line traceA traceB = Some comp
    ∧ FourthIteration.similarity comp = round4 q
    ∧ floor_rule tokensA tokensB (round4 q).
Proof.
  cbv zeta. unfold FourthIteration.compute_pair.
  rewrite fourth_similarity_value, fourth_lcs_length_table. simpl.
  eexists _, _. repeat split; try done; apply expected_similarity_floor.
Qed.



(** ** The scenarios of the specification *)

(** Scenario 1: a trace against itself. *)
Example scenario_identical_traces :
  let trace := [[("function", JStr "main"); ("line", JInt 1)];
                [("function", JStr "main"); ("line", JInt 2)]] in
  FourthIteration.compute_pair false trace trace
  = Some {| FourthIteration.similarity := 1; FourthIteration.len_a := 2;
            FourthIteration.len_b := 2; FourthIteration.lcs_len := 2 |}.
Proof. reflexivity. Qed.

(** Scenario 2: a wrapper frame against nothing. *)
Example scenario_wrapper_against_empty :
  FourthIteration.compute_pair false [[("function", JStr "_0xabc123")]] []
  = Some {| FourthIteration.similarity := 1; FourthIteration.len_a := 0;
            FourthIteration.len_b := 0; FourthIteration.lcs_len := 0 |}.
Proof. reflexivity. Qed.

(** Scenario 3: two calls in opposite orders. *)
Example scenario_swapped_calls :
  FourthIteration.canonicalize_trace
    [[("function", JStr "foo")]; [("function", JStr "bar")]] false
  = ["FN:foo"; "FN:bar"]
  ∧ FourthIteration.compute_pair false
      [[("function", JStr "foo")]; [("function", JStr "bar")]]
      [[("function", JStr "bar")]; [("function", JStr "foo")]]
    = Some {| FourthIteration.similarity := 1 # 2; FourthIteration.len_a := 2;
              FourthIteration.len_b := 2; FourthIteration.lcs_len := 1 |}.
Proof. split; reflexivity. Qed.

(** Scenario 4: a malformed line before a valid one. *)
Example scenario_malformed_line :
  FourthIteration.merge_traces
    (FourthIteration.parse_json_lines_from_stderr demo_json_loads
       ("[{oops" +:+ FourthIteration.nl +:+ demo_line +:+ FourthIteration.nl))
  = [[("function", JStr "_0xabc123")]].
Proof. reflexivity. Qed.

(** The denominator is the longer length: one common token out of one
    and two scores a half, where the average length would give two
    thirds. *)
Example similarity_uses_longer_length :
  FourthIteration.similarity_lcs ["FN:a"] ["FN:a"; "FN:b"] = Some (1 # 2)%Q
  ∧ SecondIteration.similarity_lcs ["FN:a"] ["FN:a"; "FN:b"] = Some (1 # 2)%Q.
Proof. split; reflexivity. Qed.

(** With line numbers in the tokens: an int line is appended, a wrapper
    frame is dropped all the same, a line that is not an int is left out. *)
Example include_line_tokens :
  FourthIteration.canonicalize_trace
    [[("function", JStr "main"); ("line", JInt 7)];
     [("function", JStr "_0x1f"); ("line", JInt 8)];
     [("function", JStr "main"); ("line", JStr "9")]] true
  = ["FN:main@L7"; "FN:main"].
Proof. reflexivity. Qed.

(** * Further properties of the similarity engine *)

Section LcsFacts.
Context {A : Type} `{EqDecision A}.
Implicit Types (sa sb sc : list A).

Lemma lcs_full_attained sa sb :
  ∃ c, c `sublist_of` sa ∧ c `sublist_of` sb
       ∧ length c = lcs_table sa sb (length sa) (length sb).
Proof.
  pose proof (lcs_table_attained sa sb (length sa) (length sb)) as Hex.
  rewrite !firstn_all in Hex. by apply Hex.
Qed.

Lemma lcs_full_upper sa sb c :
  c `sublist_of` sa → c `sublist_of` sb →
  length c ≤ lcs_table sa sb (length sa) (length sb).
Proof.
  intros Ha Hb.
  pose proof (lcs_table_upper sa sb (length sa) (length sb) c) as Hup.
  rewrite !firstn_all in Hup. by apply Hup.
Qed.

Lemma lcs_full_diag sa : lcs_table sa sa (length sa) (length sa) = length sa.
Proof.
  pose proof (lcs_table_le sa sa (length sa) (length sa)).
  pose proof (lcs_full_upper sa sa sa (reflexivity sa) (reflexivity sa)). lia.
Qed.

Lemma sublist_same_length (c sa : list A) :
  c `sublist_of` sa → length c = length sa → c = sa.
Proof.
  induction 1 as [|x c sa Hc IH|x c sa Hc IH]; simpl; intros Hlen.
  - done.
  - f_equal. apply IH. lia.
  - apply sublist_length in Hc. lia.
Qed.

Lemma lcs_full_eq_length sa sb :
  lcs_table sa sb (length sa) (length sb) = length sa `max` length sb ↔ sa = sb.
Proof.
  split.
  - intros Hl. pose proof (lcs_table_le sa sb (length sa) (length sb)).
    destruct (lcs_full_attained sa sb) as (c & Hca & Hcb & Hlen).
    rewrite <- (sublist_same_length c sa), <- (sublist_same_length c sb); (done || lia).
  - intros ->. rewrite lcs_full_diag. lia.
Qed.

Lemma lcs_full_zero sa sb :
  lcs_table sa sb (length sa) (length sb) = 0 ↔ ∀ x, x ∈ sa → x ∉ sb.
Proof.
  split.
  - intros Hl x Hxa Hxb.
    pose proof (lcs_full_upper sa sb [x]) as Hup.
    rewrite !singleton_sublist_l in Hup. specialize (Hup Hxa Hxb). simpl in Hup. lia.
  - intros Hdis. destruct (lcs_full_attained sa sb) as ([|x c] & Hca & Hcb & Hlen).
    + done.
    + exfalso. apply (Hdis x).
      * apply (elem_of_sublist (x :: c)); [left|done].
      * apply (elem_of_sublist (x :: c)); [left|done].
Qed.

Lemma lcs_full_app_r sa sb sc :
  lcs_table sa sb (length sa) (length sb)
  ≤ lcs_table sa (sb ++ sc) (length sa) (length (sb ++ sc)).
Proof.
  destruct (lcs_full_attained sa sb) as (c & Hca & Hcb & <-).
  apply lcs_full_upper; [done|]. by apply sublist_inserts_r.
Qed.

Lemma lcs_full_app_unrelated sa sb sc :
  (∀ x, x ∈ sc → x ∉ sa) →
  lcs_table sa (sb ++ sc) (length sa) (length (sb ++ sc))
  = lcs_table sa sb (length sa) (length sb).
Proof.
  intros Hdis. apply Nat.le_antisymm; [|apply lcs_full_app_r].
  destruct (lcs_full_attained sa (sb ++ sc)) as (c & Hca & Hcb & <-).
  apply lcs_full_upper; [done|].
  apply sublist_app_r in Hcb as (c1 & c2 & -> & Hc1 & Hc2).
  destruct c2 as [|x c2]; [by rewrite app_nil_r|].
  exfalso. apply (Hdis x).
  - apply (elem_of_sublist (x :: c2)); [left|done].
  - apply (elem_of_sublist (c1 ++ x :: c2)); [|done].
    apply elem_of_app. right. left.
Qed.

End LcsFacts.


Lemma Qeq_ratio_one (l d : nat) :
  d ≠ 0 → (Z.of_nat l # Pos.of_nat d == 1)%Q ↔ l = d.
Proof.
  intros Hd. unfold Qeq. simpl. rewrite Zpos_of_nat by done. lia.
Qed.

Lemma Qeq_ratio_zero (l d : nat) : (Z.of_nat l # Pos.of_nat d == 0)%Q ↔ l = 0.
Proof. unfold Qeq. simpl. lia. Qed.

Lemma Qle_ratio_denominator (l d d' : nat) :
  d ≠ 0 → d ≤ d' →
  (Z.of_nat l # Pos.of_nat d' <= Z.of_nat l # Pos.of_nat d)%Q.
Proof.
  intros Hd Hdd. unfold Qle. simpl. rewrite !Zpos_of_nat by lia. nia.
Qed.

Lemma round4_ratio_one (d : nat) : d ≠ 0 → round4 (Z.of_nat d # Pos.of_nat d) = 1%Q.
Proof.
  intros Hd. unfold round4. simpl Qnum. simpl Qden.
  rewrite Zpos_of_nat by done.
  rewrite (Z.mul_comm (Z.of_nat d)), Z_div_mult, Z_mod_mult by lia.
  replace (2 * 0 ?= Z.of_nat d)%Z with Lt; [done|].
  symmetry. apply Z.compare_lt_iff. lia.
Qed.

(** X1. [lcs_length] returns the length of a longest common subsequence:
    some common subsequence has that length and none is longer. *)
Theorem lcs_length_longest_common_subsequence (seqA seqB : list string) :
  ∃ l : nat,
    FourthIteration.lcs_length seqA seqB = Some l
    ∧ (∃ c, c `sublist_of` seqA ∧ c `sublist_of` seqB ∧ length c = l)
    ∧ ∀ c, c `sublist_of` seqA → c `sublist_of` seqB → length c ≤ l.
Proof.
  eexists. split; [apply fourth_lcs_length_table|].
  split; [apply lcs_full_attained|]. intros c. apply lcs_full_upper.
Qed.

(** X2. A trace compared with itself: the LCS is the whole token
    sequence and the reported similarity is 1, whatever the trace. *)
Theorem compute_pair_identity (include_line : bool) (trace : list dict) :
  let n := length (FourthIteration.canonicalize_trace trace include_line) in
  FourthIteration.compute_pair include_line trace trace
  = Some {| FourthIteration.similarity := 1; FourthIteration.len_a := n;
            FourthIteration.len_b := n; FourthIteration.lcs_len := n |}.
Proof.
  cbv zeta. unfold FourthIteration.compute_pair.
  rewrite fourth_similarity_value, fourth_lcs_length_table, lcs_full_diag. simpl.
  do 2 f_equal.
  destruct (FourthIteration.canonicalize_trace trace include_line) as [|t ts] eqn:Ht;
    [done|].
  unfold expected_similarity. rewrite Nat.max_id. by apply round4_ratio_one.
Qed.

(** X3. The similarity is 1 exactly when the two token sequences are
    equal. *)
Theorem similarity_one_iff_equal (seqA seqB : list string) :
  ∃ s : Q,
    FourthIteration.similarity_lcs seqA seqB = Some s
    ∧ ((s == 1)%Q ↔ seqA = seqB).
Proof.
  eexists. split; [apply fourth_similarity_value|].
  destruct seqA as [|a seqA], seqB as [|b seqB]; try (by split).
  unfold expected_similarity.
  rewrite Qeq_ratio_one by (simpl; lia). apply lcs_full_eq_length.
Qed.

(** X4. The similarity is 0 exactly when one sequence is empty and the
    other is not, or when the two share no token. *)
Theorem similarity_zero_iff_disjoint (seqA seqB : list string) :
  ∃ s : Q,
    FourthIteration.similarity_lcs seqA seqB = Some s
    ∧ ((s == 0)%Q ↔
       (seqA ≠ [] ∨ seqB ≠ []) ∧ ∀ x, x ∈ seqA → x ∉ seqB).
Proof.
  eexists. split; [apply fourth_similarity_value|].
  destruct seqA as [|a seqA], seqB as [|b seqB]; unfold expected_similarity.
  - split; [done|]. by intros [[?|?] _].
  - split; [|done]. intros _. split; [by right|]. by intros x ?%elem_of_nil.
  - split; [|done]. intros _. split; [by left|]. by intros x _ ?%elem_of_nil.
  - rewrite Qeq_ratio_zero, lcs_full_zero. split; [|by intros [_ ?]].
    intros Hdis. split; [by left|done].
Qed.

(** X5. Appending tokens to one side never shortens the LCS, and tokens
    that do not occur on the other side leave it unchanged, so that such
    padding never raises the similarity. *)
Theorem padding_never_raises_similarity (seqA seqB pad : list string) :
  (∀ x, x ∈ pad → x ∉ seqA) →
  ∃ (l : nat) (s s' : Q),
    FourthIteration.lcs_length seqA seqB = Some l
    ∧ FourthIteration.lcs_length seqA (seqB ++ pad) = Some l
    ∧ FourthIteration.similarity_lcs seqA seqB = Some s
    ∧ FourthIteration.similarity_lcs seqA (seqB ++ pad) = Some s'
    ∧ (s' <= s)%Q.
Proof.
  intros Hdis. eexists _, _, _.
  rewrite !fourth_lcs_length_table, !fourth_similarity_value.
  rewrite (lcs_full_app_unrelated seqA seqB pad Hdis).
  repeat split.
  destruct seqA as [|a seqA], seqB as [|b seqB], pad as [|p pad];
    unfold expected_similarity; simpl app; try done.
  - rewrite app_nil_r. apply Qle_refl.
  - cbv iota. apply Qle_ratio_denominator; simpl; rewrite ?length_app; simpl; lia.
Qed.

Lemma padding_never_raises_similarity_witness :
  FourthIteration.similarity_lcs ["FN:a"] ["FN:a"] = Some 1%Q
  ∧ FourthIteration.similarity_lcs ["FN:a"] (["FN:a"] ++ ["FN:b"]) = Some (1 # 2)%Q
  ∧ ∃ (l : nat) (s s' : Q),
      FourthIteration.lcs_length ["FN:a"] ["FN:a"] = Some l
      ∧ FourthIteration.lcs_length ["FN:a"] (["FN:a"] ++ ["FN:b"]) = Some l
      ∧ FourthIteration.similarity_lcs ["FN:a"] ["FN:a"] = Some s
      ∧ FourthIteration.similarity_lcs ["FN:a"] (["FN:a"] ++ ["FN:b"]) = Some s'
      ∧ (s' <= s)%Q.
Proof.
  split; [reflexivity|]. split; [reflexivity|].
  apply (padding_never_raises_similarity ["FN:a"] ["FN:a"] ["FN:b"]).
  intros x Hx Hxa. apply list_elem_of_singleton in Hx, Hxa. congruence.
Defined.

(** * Further properties of the canonicaliser *)

Lemma canonicalize_step_app (include_line : bool) (tokens : list string) (e : dict) :
  FourthIteration.canonicalize_step include_line tokens e
  = tokens ++ FourthIteration.canonicalize_step include_line [] e.
Proof.
  unfold FourthIteration.canonicalize_step.
  destruct (String.eqb _ "OBFUSCATOR_WRAPPER"); [by rewrite app_nil_r|done].
Qed.

Lemma canonicalize_trace_fold (include_line : bool) (tokens : list string)
    (raw_trace : list dict) :
  foldl (FourthIteration.canonicalize_step include_line) tokens raw_trace
  = tokens ++ FourthIteration.canonicalize_trace raw_trace include_line.
Proof.
  unfold FourthIteration.canonicalize_trace.
  revert tokens. induction raw_trace as [|e es IH]; intros tokens; simpl.
  - by rewrite app_nil_r.
  - rewrite IH, (IH (FourthIteration.canonicalize_step _ [] e)),
      canonicalize_step_app, app_assoc. done.
Qed.

Lemma canonicalize_trace_cons (include_line : bool) (e : dict) (es : list dict) :
  FourthIteration.canonicalize_trace (e :: es) include_line
  = FourthIteration.canonicalize_step include_line [] e
    ++ FourthIteration.canonicalize_trace es include_line.
Proof.
  unfold FourthIteration.canonicalize_trace at 1. simpl.
  apply canonicalize_trace_fold.
Qed.

Lemma canonicalize_trace_app (include_line : bool) (t1 t2 : list dict) :
  FourthIteration.canonicalize_trace (t1 ++ t2) include_line
  = FourthIteration.canonicalize_trace t1 include_line
    ++ FourthIteration.canonicalize_trace t2 include_line.
Proof.
  unfold FourthIteration.canonicalize_trace at 1.
  rewrite foldl_app. apply canonicalize_trace_fold.
Qed.

(** X6. Canonicalisation works record by record: the tokens of a
    concatenated trace are the tokens of its parts in order, and the
    tokens of a merged trace are those of the merged arrays in order. *)
Theorem canonicalize_trace_concatenation (include_line : bool)
    (t1 t2 : list dict) (trace_lists : list (list dict)) :
  FourthIteration.canonicalize_trace (t1 ++ t2) include_line
  = FourthIteration.canonicalize_trace t1 include_line
    ++ FourthIteration.canonicalize_trace t2 include_line
  ∧ FourthIteration.canonicalize_trace
      (FourthIteration.merge_traces trace_lists) include_line
    = concat ((λ t, FourthIteration.canonicalize_trace t include_line) <$> trace_lists).
Proof.
  split; [apply canonicalize_trace_app|].
  rewrite merge_traces_concat.
  induction trace_lists as [|t ts IH]; [done|].
  simpl. by rewrite canonicalize_trace_app, IH.
Qed.

Lemma contains_at_suffix (s x : string) : contains "@" (s +:+ "@" +:+ x) = true.
Proof.
  induction s as [|c s IH]; simpl.
  - by destruct x.
  - change (String.app s (String.app "@" x)) with (s +:+ "@" +:+ x).
    by rewrite IH, orb_true_r.
Qed.

Lemma suffixed_not_wrapper (s x : string) :
  String.eqb (s +:+ "@L" +:+ x) "OBFUSCATOR_WRAPPER" = false.
Proof.
  apply String.eqb_neq. intros Heq.
  pose proof (contains_at_suffix s ("L" +:+ x)) as Hat.
  change (s +:+ "@" +:+ ("L" +:+ x)) with (s +:+ "@L" +:+ x) in Hat.
  rewrite Heq in Hat. by vm_compute in Hat.
Qed.

Lemma canonicalize_step_single (include_line : bool) (e : dict) :
  FourthIteration.canonicalize_step include_line [] e
  = if String.eqb (FourthIteration.canonicalize_entry e) "OBFUSCATOR_WRAPPER"
    then []
    else [if include_line && isinstance_int (get e "line")
          then FourthIteration.canonicalize_entry e +:+ "@L" +:+ str (get e "line")
          else FourthIteration.canonicalize_entry e].
Proof.
  unfold FourthIteration.canonicalize_step.
  destruct include_line; simpl "&&"; [|done].
  unfold in_tuple. simpl existsb. rewrite orb_false_r.
  destruct (String.eqb (FourthIteration.canonicalize_entry e) "OBFUSCATOR_WRAPPER")
    eqn:Hw.
  - by rewrite andb_false_r, Hw.
  - rewrite andb_true_r. destruct (isinstance_int (get e "line")); [|by rewrite Hw].
    by rewrite suffixed_not_wrapper.
Qed.

(** X7. [canonicalize_trace] never emits [OBFUSCATOR_WRAPPER]; it keeps,
    in order, exactly the records whose token is not the wrapper token,
    so it returns at most as many tokens as there are records. *)
Theorem canonicalize_trace_drops_wrappers_only (include_line : bool)
    (raw_trace : list dict) :
  let tokens := FourthIteration.canonicalize_trace raw_trace include_line in
  ("OBFUSCATOR_WRAPPER" ∉ tokens)
  ∧ length tokens
    = length (filter (λ e, FourthIteration.canonicalize_entry e ≠ "OBFUSCATOR_WRAPPER")
                raw_trace)
  ∧ length tokens ≤ length raw_trace.
Proof.
  cbv zeta.
  assert (length (FourthIteration.canonicalize_trace raw_trace include_line)
          = length (filter (λ e, FourthIteration.canonicalize_entry e
                                 ≠ "OBFUSCATOR_WRAPPER") raw_trace)) as Hlen.
  { induction raw_trace as [|e es IH]; [done|].
    rewrite canonicalize_trace_cons, length_app, IH, canonicalize_step_single,
      filter_cons.
    destruct (String.eqb_spec (FourthIteration.canonicalize_entry e)
                "OBFUSCATOR_WRAPPER") as [He|He].
    - by rewrite decide_False by (by intros ?).
    - by rewrite decide_True. }
  split; [|split; [done|]].
  - clear Hlen. induction raw_trace as [|e es IH]; [by intros ?%elem_of_nil|].
    rewrite canonicalize_trace_cons, elem_of_app. intros [Hin|Hin]; [|by apply IH].
    unfold FourthIteration.canonicalize_step in Hin.
    match type of Hin with
    | _ ∈ (if String.eqb ?t _ then _ else _) =>
        destruct (String.eqb_spec t "OBFUSCATOR_WRAPPER") as [Heq|Hne]
    end.
    + by apply elem_of_nil in Hin.
    + apply list_elem_of_singleton in Hin. by rewrite <- Hin in Hne.
  - rewrite Hlen. apply length_filter.
Qed.

Lemma before_at_suffix (s x : string) : before_at (s +:+ "@" +:+ x) = before_at s.
Proof.
  induction s as [|c s IH]; [done|]. simpl.
  destruct (Ascii.eqb c "@"); [done|]. by rewrite IH.
Qed.

Lemma before_at_app_no_at (s x : string) :
  before_at s = s → before_at (s +:+ x) = s +:+ before_at x.
Proof.
  induction s as [|c s IH]; [done|]. simpl.
  destruct (Ascii.eqb c "@"); [done|]. intros [= Hs]. by rewrite IH.
Qed.

Lemma before_at_sub_non_word (s : string) :
  before_at (FourthIteration.sub_non_word s) = FourthIteration.sub_non_word s.
Proof.
  induction s as [|c s IH]; [done|].
  change (FourthIteration.sub_non_word (String c s))
    with (String (if FourthIteration.is_word c then c else "_"%char)
            (FourthIteration.sub_non_word s)).
  cbn [before_at].
  assert (Ascii.eqb (if FourthIteration.is_word c then c else "_"%char) "@" = false)
    as -> by each_char c.
  by rewrite IH.
Qed.

Lemma before_at_classify (name : string) : before_at (classify name) = classify name.
Proof.
  destruct (classify_shape name) as [Hv| ->].
  - unfold vocabulary in Hv. rewrite !elem_of_cons, elem_of_nil in Hv.
    destruct Hv as [->|[->|[->|[->|[->|[->|[->|[]]]]]]]]; reflexivity.
  - rewrite before_at_app_no_at by done. f_equal.
    destruct (String.eqb _ ""); [done|apply before_at_sub_non_word].
Qed.

Lemma canonicalize_trace_plain (raw_trace : list dict) :
  FourthIteration.canonicalize_trace raw_trace false
  = before_at <$> FourthIteration.canonicalize_trace raw_trace true.
Proof.
  induction raw_trace as [|e es IH]; [done|].
  rewrite !canonicalize_trace_cons, fmap_app, <- IH. f_equal.
  rewrite !canonicalize_step_single. simpl "&&".
  destruct (String.eqb _ "OBFUSCATOR_WRAPPER"); [done|].
  rewrite canonicalize_entry_classify.
  destruct (isinstance_int (get e "line")); simpl.
  - change (?a +:+ "@L" +:+ ?b) with (a +:+ "@" +:+ ("L" +:+ b)).
    by rewrite before_at_suffix, before_at_classify.
  - by rewrite before_at_classify.
Qed.

(** X8. Line numbers in the tokens do not change which records are
    kept: the sequence without line numbers is the sequence with line
    numbers, each token cut at its [@L] suffix. *)
Theorem include_line_keeps_records (raw_trace : list dict) :
  FourthIteration.canonicalize_trace raw_trace false
  = before_at <$> FourthIteration.canonicalize_trace raw_trace true
  ∧ length (FourthIteration.canonicalize_trace raw_trace true)
    = length (FourthIteration.canonicalize_trace raw_trace false).
Proof.
  split; [apply canonicalize_trace_plain|].
  by rewrite canonicalize_trace_plain, length_fmap.
Qed.


Lemma word_not_space (c : ascii) : FourthIteration.is_word c = true → isspace c = false.
Proof. destruct c as [[] [] [] [] [] [] [] []]; vm_compute; congruence. Qed.

Lemma all_word_strip (s : string) : all_word s = true → strip s = s.
Proof.
  intros Hs. unfold strip.
  assert (lstrip s = s) as ->.
  { destruct s as [|c s]; [done|]. simpl in *.
    apply andb_true_iff in Hs as [Hc _]. by rewrite (word_not_space c Hc). }
  induction s as [|c s IH]; [done|]. simpl in *.
  apply andb_true_iff in Hs as [Hc Hs]. rewrite (IH Hs), (word_not_space c Hc).
  by destruct s.
Qed.

Lemma all_word_sub_non_word (s : string) :
  all_word s = true → FourthIteration.sub_non_word s = s.
Proof.
  induction s as [|c s IH]; [done|]. simpl. intros [Hc Hs]%andb_true_iff.
  unfold FourthIteration.sub_non_word in *. simpl. by rewrite Hc, IH.
Qed.

Lemma func_norm_of_name (s : string) :
  s ≠ "" → func_norm [("function", JStr s)] = strip s.
Proof.
  intros Hs%String.eqb_neq. unfold func_norm.
  change (get [("function", JStr s)] "function") with (JStr s).
  unfold or_ at 1. simpl truthy. by rewrite Hs.
Qed.

(** X10. A function name made of white space only is not treated as
    missing: the record gets [FN:FN_UNKNOWN] and its [event] field is
    not consulted. *)
Theorem blank_function_name_masks_event (entry : dict) (s : string) :
  get entry "function" = JStr s → s ≠ "" → strip s = "" →
  FourthIteration.canonicalize_entry entry = "FN:FN_UNKNOWN"
  ∧ SecondIteration.canonicalize_entry entry = "FN:FN_UNKNOWN".
Proof.
  intros Hf Hs%String.eqb_neq Hstrip.
  assert (func_norm entry = "") as Hn.
  { unfold func_norm. unfold or_ at 1. rewrite Hf. simpl truthy. by rewrite Hs. }
  by rewrite second_canonicalize_entry_eq, canonicalize_entry_classify, Hn.
Qed.

Lemma blank_function_name_masks_event_witness :
  FourthIteration.canonicalize_entry [("function", JStr " "); ("event", JStr "data")]
  = "FN:FN_UNKNOWN"
  ∧ FourthIteration.canonicalize_entry [("event", JStr "data")] = "HANDLER".
Proof.
  split; [|reflexivity].
  apply (blank_function_name_masks_event
           [("function", JStr " "); ("event", JStr "data")] " ");
    [reflexivity|discriminate|reflexivity].
Defined.

(** X11. Identifiers are not conflated: two non-empty names made of
    letters, digits and underscores that no keyword rule catches get the
    same token only if they are the same name. *)
Theorem identifier_tokens_injective (s1 s2 : string) :
  all_word s1 = true → all_word s2 = true → s1 ≠ "" → s2 ≠ "" →
  FourthIteration.canonicalize_entry [("function", JStr s1)] ∉ vocabulary →
  FourthIteration.canonicalize_entry [("function", JStr s1)]
  = FourthIteration.canonicalize_entry [("function", JStr s2)] →
  s1 = s2 ∧ FourthIteration.canonicalize_entry [("function", JStr s1)] = "FN:" +:+ s1.
Proof.
  intros Hw1 Hw2 Hn1 Hn2. rewrite !canonicalize_entry_classify, !func_norm_of_name by done.
  rewrite !all_word_strip by done. intros Hv Heq.
  assert (∀ s, all_word s = true → s ≠ "" → classify s ∉ vocabulary →
               classify s = "FN:" +:+ s) as Hfn.
  { intros s Hw Hn Hnv. destruct (classify_shape s) as [?|Hs]; [done|].
    rewrite Hs, all_word_sub_non_word by done.
    apply String.eqb_neq in Hn. by rewrite Hn. }
  pose proof (Hfn s1 Hw1 Hn1 Hv) as H1.
  assert (classify s2 ∉ vocabulary) as Hv2 by by rewrite <- Heq.
  pose proof (Hfn s2 Hw2 Hn2 Hv2) as H2.
  split; [|done]. rewrite H1, H2 in Heq. by injection Heq.
Qed.

Lemma identifier_tokens_injective_witness :
  FourthIteration.canonicalize_entry [("function", JStr "main")] = "FN:main".
Proof.
  apply (identifier_tokens_injective "main" "main");
    [reflexivity|reflexivity|discriminate|discriminate| |reflexivity].
  change (FourthIteration.canonicalize_entry [("function", JStr "main")])
    with "FN:main".
  unfold vocabulary. rewrite !elem_of_cons, elem_of_nil.
  intros [?|[?|[?|[?|[?|[?|[?|[]]]]]]]]; discriminate.
Defined.

(** * Further properties of the orchestrator *)

(** X12. The report of [process_file] has exactly five keys: [file] with
    the stem, [traces] with the number of raw records of each of the
    three variants (wrapper frames included), and the three pair keys. *)
Theorem process_file_report_shape
    (json_loads : string → option json) (path : Type)
    (instrument_file : path → option string)
    (run_node : string → string → nat → FourthIteration.run_outcome)
    (dump_trace : string → string → list dict → bool)
    (include_line : bool) (name stem : string)
    (original : path) (obfuscated deobfuscated : option path) :
  let raw := λ (version : string) (p : option path),
    FourthIteration.variant_trace json_loads path instrument_file run_node
      dump_trace name stem version p in
  ∃ results : gmap string FourthIteration.report_value,
    FourthIteration.process_file json_loads path instrument_file run_node
      dump_trace include_line name stem
      (FourthIteration.file_variations path original obfuscated deobfuscated)
    = Some results
    ∧ dom results
      = {[ "file"; "traces"; "original_vs_obfuscated";
           "obfuscated_vs_deobfuscated"; "deobfuscated_vs_original" ]}
    ∧ results !! "file" = Some (FourthIteration.RFile stem)
    ∧ results !! "traces"
      = Some (FourthIteration.RTraces
                {[ "original" := length (raw "original" (Some original));
                   "obfuscated" := length (raw "obfuscated" obfuscated);
                   "deobfuscated" := length (raw "deobfuscated" deobfuscated) ]}).
Proof.
  cbv zeta.
  unfold FourthIteration.process_file, FourthIteration.file_variations,
    FourthIteration.pairs.
  simpl foldl.
  set (tr_ori := FourthIteration.variant_trace _ _ _ _ _ _ _ "original" _).
  set (tr_obf := FourthIteration.variant_trace _ _ _ _ _ _ _ "obfuscated" _).
  set (tr_deo := FourthIteration.variant_trace _ _ _ _ _ _ _ "deobfuscated" _).
  set (traces_raw := <["deobfuscated":=tr_deo]> _).
  assert (traces_raw !! "original" = Some tr_ori) as Hori.
  { unfold traces_raw. rewrite !lookup_insert_ne by done. apply lookup_insert_eq. }
  assert (traces_raw !! "obfuscated" = Some tr_obf) as Hobf.
  { unfold traces_raw. rewrite lookup_insert_ne by done. apply lookup_insert_eq. }
  assert (traces_raw !! "deobfuscated" = Some tr_deo) as Hdeo.
  { unfold traces_raw. apply lookup_insert_eq. }
  destruct (compute_pair_similarity include_line tr_ori tr_obf)
    as (q1 & c1 & _ & Hc1 & _).
  destruct (compute_pair_similarity include_line tr_obf tr_deo)
    as (q2 & c2 & _ & Hc2 & _).
  destruct (compute_pair_similarity include_line tr_deo tr_ori)
    as (q3 & c3 & _ & Hc3 & _).
  simpl for_each. rewrite Hori, Hobf, Hdeo. simpl default.
  rewrite Hc1, Hc2, Hc3. simpl mbind.
  eexists. split; [done|]. split; [|split].
  - rewrite !dom_insert_L, dom_singleton_L. set_solver.
  - rewrite !lookup_insert_ne by done. apply lookup_singleton_eq.
  - rewrite !lookup_insert_ne by done. rewrite lookup_insert_eq.
    do 2 f_equal.
Qed.

(** * The run summary *)

Lemma round_half_even_mono (a d b e : Z) :
  (0 < d)%Z → (0 < e)%Z → (a * e <= b * d)%Z →
  ((if match (2 * (a mod d) ?= d)%Z with
       | Lt => false | Gt => true | Eq => Z.odd (a / d)
       end
    then a / d + 1 else a / d)
   <= (if match (2 * (b mod e) ?= e)%Z with
          | Lt => false | Gt => true | Eq => Z.odd (b / e)
          end
       then b / e + 1 else b / e))%Z.
Proof.
  intros Hd He Hab.
  pose proof (Z.div_mod a d ltac:(lia)) as Ha.
  pose proof (Z.mod_pos_bound a d Hd) as Hra.
  pose proof (Z.div_mod b e ltac:(lia)) as Hb.
  pose proof (Z.mod_pos_bound b e He) as Hrb.
  set (q := (a / d)%Z) in *. set (r := (a mod d)%Z) in *.
  set (q' := (b / e)%Z) in *. set (r' := (b mod e)%Z) in *.
  assert (q <= q')%Z as Hq.
  { destruct (Z_le_gt_dec q q') as [|Hgt]; [done|]. exfalso.
    assert (d * (q' + 1) <= a)%Z as H1 by nia.
    assert (b < e * (q' + 1))%Z as H2 by nia.
    assert (d * (q' + 1) * e <= a * e)%Z as H3 by (apply Z.mul_le_mono_nonneg_r; lia).
    assert (b * d < e * (q' + 1) * d)%Z as H4 by (apply Z.mul_lt_mono_pos_r; lia).
    replace (e * (q' + 1) * d)%Z with (d * (q' + 1) * e)%Z in H4 by ring. lia. }
  destruct (Z.eq_dec q q') as [Heq|Hne].
  - rewrite <- Heq in *. assert (r * e <= r' * d)%Z as Hr by nia.
    destruct (Z.compare_spec (2 * r) d), (Z.compare_spec (2 * r') e);
      try lia; try (destruct (Z.odd q); lia); nia.
  - destruct (Z.compare_spec (2 * r) d), (Z.compare_spec (2 * r') e);
      repeat destruct (Z.odd _); lia.
Qed.

Lemma round4_mono (x y : Q) : (x <= y)%Q → (round4 x <= round4 y)%Q.
Proof.
  intros Hxy. unfold round4. rewrite !Qred_correct.
  unfold Qle in *. simpl Qnum. simpl Qden.
  apply Z.mul_le_mono_nonneg_r; [done|].
  apply round_half_even_mono; [done..|].
  replace (Qnum x * 10000 * Z.pos (Qden y))%Z
    with (Qnum x * Z.pos (Qden y) * 10000)%Z by ring.
  replace (Qnum y * 10000 * Z.pos (Qden x))%Z
    with (Qnum y * Z.pos (Qden x) * 10000)%Z by ring.
  by apply Z.mul_le_mono_nonneg_r.
Qed.

Lemma round4_unit (x : Q) :
  (0 <= x)%Q → (x <= 1)%Q → (0 <= round4 x)%Q ∧ (round4 x <= 1)%Q.
Proof.
  intros H0 H1. split.
  - change 0%Q with (round4 0). by apply round4_mono.
  - change 1%Q with (round4 1). by apply round4_mono.
Qed.







Lemma compute_pair_bounded (include_line : bool) (traceA traceB : list dict) :
  ∃ q comp,
    FourthIteration.compute_pair include_line traceA traceB = Some comp
    ∧ FourthIteration.similarity comp = round4 q
    ∧ (0 <= q)%Q ∧ (q <= 1)%Q.
Proof.
  unfold FourthIteration.compute_pair.
  rewrite fourth_similarity_value, fourth_lcs_length_table. simpl.
  eexists _, _. split; [done|]. split; [done|].
  apply expected_similarity_bounds, lcs_table_le.
Qed.

(** X13. Every score in a report of [process_file] lies between 0 and
    1, also after rounding, and the report holds all three of them. *)
Theorem process_file_scores_in_unit_interval
    (json_loads : string → option json) (path : Type)
    (instrument_file : path → option string)
    (run_node : string → string → nat → FourthIteration.run_outcome)
    (dump_trace : string → string → list dict → bool)
    (include_line : bool) (name stem : string)
    (original : path) (obfuscated deobfuscated : option path) :
  ∃ results : gmap string FourthIteration.report_value,
    FourthIteration.process_file json_loads path instrument_file run_node
      dump_trace include_line name stem
      (FourthIteration.file_variations path original obfuscated deobfuscated)
    = Some results
    ∧ full_report results.
Proof.
  unfold FourthIteration.process_file, FourthIteration.file_variations,
    FourthIteration.pairs.
  cbn [foldl].
  set (tr_ori := FourthIteration.variant_trace _ _ _ _ _ _ _ "original" _).
  set (tr_obf := FourthIteration.variant_trace _ _ _ _ _ _ _ "obfuscated" _).
  set (tr_deo := FourthIteration.variant_trace _ _ _ _ _ _ _ "deobfuscated" _).
  set (traces_raw := <["deobfuscated":=tr_deo]> _).
  assert (traces_raw !! "original" = Some tr_ori) as Hori.
  { unfold traces_raw. rewrite !lookup_insert_ne by done. apply lookup_insert_eq. }
  assert (traces_raw !! "obfuscated" = Some tr_obf) as Hobf.
  { unfold traces_raw. rewrite lookup_insert_ne by done. apply lookup_insert_eq. }
  assert (traces_raw !! "deobfuscated" = Some tr_deo) as Hdeo.
  { unfold traces_raw. apply lookup_insert_eq. }
  destruct (compute_pair_bounded include_line tr_ori tr_obf)
    as (q1 & c1 & Hc1 & Hs1 & Hq1).
  destruct (compute_pair_bounded include_line tr_obf tr_deo)
    as (q2 & c2 & Hc2 & Hs2 & Hq2).
  destruct (compute_pair_bounded include_line tr_deo tr_ori)
    as (q3 & c3 & Hc3 & Hs3 & Hq3).
  simpl for_each. rewrite Hori, Hobf, Hdeo. simpl default.
  rewrite Hc1, Hc2, Hc3. simpl mbind.
  eexists. split; [done|]. rewrite Hs1, Hs2, Hs3.
  unfold full_report, Summary.pair_keys. repeat constructor.
  - exists (round4 q1). split; [|apply round4_unit; apply Hq1].
    rewrite !lookup_insert_ne by done. apply lookup_insert_eq.
  - exists (round4 q2). split; [|apply round4_unit; apply Hq2].
    rewrite lookup_insert_ne by done. apply lookup_insert_eq.
  - exists (round4 q3). split; [|apply round4_unit; apply Hq3]. apply lookup_insert_eq.
Qed.





(** * The instrumenter of the first iteration *)

Lemma instrument_line_facts (lines : list string)
    (st : FirstIteration.instrument_state) (line : string) :
  let st' := FirstIteration.instrument_line lines st line in
  FirstIteration.line_number st' = FirstIteration.line_number st + 1
  ∧ FirstIteration.instrumented st'
    = FirstIteration.instrumented st
      ++ (if FirstIteration.significant line
          then [FirstIteration.trace_point (FirstIteration.current_function st')
                  (FirstIteration.line_number st')] else [])
      ++ [line]
  ∧ (FirstIteration.current_function st' = "global"
     ∨ FirstIteration.current_function st' = FirstIteration.current_function st
     ∨ FirstIteration.match_function line
       = Some (FirstIteration.current_function st')
     ∨ (FirstIteration.current_function st' = "data_handler"
        ∧ in_list "process.stdin.on"
            (slice lines (0 `max` (FirstIteration.line_number st + 1 - 2))
               (FirstIteration.line_number st + 1 + 2)) = true)).
Proof.
  cbv zeta. unfold FirstIteration.instrument_line.
  destruct (FirstIteration.match_function line) as [name|] eqn:Hm.
  - destruct (_ && true); simpl; (split; [done|]);
      (split; [by destruct (FirstIteration.significant line); rewrite <- ?app_assoc|]);
      auto.
  - destruct (contains "function(" line || contains "function (" line).
    + destruct (in_list _ _) eqn:Hin.
      * destruct (_ && true); simpl; (split; [done|]);
          (split; [by destruct (FirstIteration.significant line); rewrite <- ?app_assoc|]);
          auto.
      * destruct (_ && FirstIteration.in_function st); simpl; (split; [done|]);
          (split; [by destruct (FirstIteration.significant line); rewrite <- ?app_assoc|]);
          auto.
    + destruct (_ && FirstIteration.in_function st); simpl; (split; [done|]);
        (split; [by destruct (FirstIteration.significant line); rewrite <- ?app_assoc|]);
        auto.
Qed.

Lemma instrument_fold (lines : list string) (st : FirstIteration.instrument_state)
    (ls : list string) :
  FirstIteration.instrumented (foldl (FirstIteration.instrument_line lines) st ls)
  = FirstIteration.instrumented st
    ++ concat (imap (λ i '(label, line),
                       (if FirstIteration.significant line
                        then [FirstIteration.trace_point label
                                (FirstIteration.line_number st + i + 1)] else [])
                       ++ [line])
                 (zip (FirstIteration.current_function
                         <$> instrument_states lines st ls) ls)).
Proof.
  revert st. induction ls as [|l ls IH]; intros st; simpl.
  - by rewrite app_nil_r.
  - destruct (instrument_line_facts lines st l) as (Hn & Hi & _).
    rewrite IH, Hi, Hn, <- !app_assoc, Nat.add_0_r. do 4 f_equal.
    apply imap_ext. intros i [label line] _. simpl.
    by replace (FirstIteration.line_number st + 1 + i + 1)
      with (FirstIteration.line_number st + S i + 1) by lia.
Qed.

Lemma instrument_states_length (lines : list string)
    (st : FirstIteration.instrument_state) (ls : list string) :
  length (instrument_states lines st ls) = length ls.
Proof. revert st. induction ls as [|l ls IH]; intros st; simpl; [done|by rewrite IH]. Qed.

Lemma instrument_value (code : string) :
  FirstIteration.instrument code
  = instrumented_with
      (FirstIteration.current_function
         <$> instrument_states (split code lf) FirstIteration.initial_state
               (split code lf))
      (split code lf).
Proof.
  unfold FirstIteration.instrument, instrumented_with.
  rewrite instrument_fold, <- app_assoc. simpl FirstIteration.line_number.
  reflexivity.
Qed.

Lemma is_w_literal_safe (c : ascii) :
  FirstIteration.is_w c = true → literal_safe c = true.
Proof. destruct c as [[] [] [] [] [] [] [] []]; vm_compute; congruence. Qed.

Lemma re_run_all (cls : ascii → bool) (s : string) :
  all_chars cls (FirstIteration.re_run cls s) = true.
Proof.
  induction s as [|c s IH]; [done|]. simpl.
  destruct (cls c) eqn:Hc; [|done]. simpl. by rewrite Hc, IH.
Qed.

Lemma all_chars_impl (p q : ascii → bool) (s : string) :
  (∀ c, p c = true → q c = true) → all_chars p s = true → all_chars q s = true.
Proof.
  intros Hpq. induction s as [|c s IH]; [done|]. simpl.
  intros [Hc Hs]%andb_true_iff. by rewrite (Hpq c Hc), IH.
Qed.

Lemma match_function_name (line name : string) :
  FirstIteration.match_function line = Some name →
  name ≠ "" ∧ all_chars FirstIteration.is_w name = true.
Proof.
  unfold FirstIteration.match_function.
  destruct (FourthIteration.re_lit _ _) as [r|]; [|done]. simpl.
  destruct (FourthIteration.re_plus isspace r) as [r'|]; [|done]. simpl.
  pose proof (re_run_all FirstIteration.is_w r') as Hall.
  destruct (FirstIteration.re_run FirstIteration.is_w r') as [|c n]; [done|].
  intros [= <-]. done.
Qed.

Lemma instrument_states_labels (P : string → Prop) (lines : list string)
    (st : FirstIteration.instrument_state) (ls : list string) :
  P "global" → P (FirstIteration.current_function st) →
  (∀ line name, line ∈ ls → FirstIteration.match_function line = Some name → P name) →
  (in_list "process.stdin.on" lines = true → P "data_handler") →
  Forall P (FirstIteration.current_function <$> instrument_states lines st ls).
Proof.
  intros Hg Hst Hname Hdata. revert st Hst Hname.
  induction ls as [|l ls IH]; intros st Hst Hname; simpl; [constructor|].
  destruct (instrument_line_facts lines st l) as (_ & _ & Hlabel).
  assert (P (FirstIteration.current_function (FirstIteration.instrument_line lines st l)))
    as Hnew.
  { destruct Hlabel as [->|[->|[Hm|[-> Hin]]]]; [done|done| |].
    - apply (Hname l); [left|done].
    - apply Hdata. unfold in_list, slice in *.
      apply existsb_exists in Hin as (x & Hx & Heq).
      apply existsb_exists. exists x. split; [|done].
      apply list_elem_of_In. apply list_elem_of_In in Hx.
      eapply elem_of_sublist; [exact Hx|].
      etrans; [apply sublist_drop|apply sublist_take]. }
  constructor; [done|]. apply IH; [done|].
  intros line name Hin. apply Hname. by right.
Qed.

(** X15. [instrument] only inserts lines: its result is the prologue,
    then every line of the code in order, each significant line (not
    blank, not a [//] comment) preceded by one probe that carries the
    line's 1-based number, then the epilogue; and no probe label holds a
    double quote, a backslash or a line break. *)
Theorem instrument_inserts_probes (code : string) :
  ∃ labels : list string,
    length labels = length (split code lf)
    ∧ FirstIteration.instrument code = instrumented_with labels (split code lf)
    ∧ Forall (λ label, all_chars literal_safe label = true) labels.
Proof.
  eexists. split; [|split; [apply instrument_value|]].
  - by rewrite length_fmap, instrument_states_length.
  - apply instrument_states_labels; try done.
    intros line name _ [_ Hw]%match_function_name.
    exact (all_chars_impl FirstIteration.is_w literal_safe name is_w_literal_safe Hw).
Qed.

(** X16. The label [data_handler] is given only when some line of the
    code is exactly the text [process.stdin.on] (the window test is a
    membership in a list of lines): without such a line every probe
    label is [global] or a name taken from a [function name] line. *)
Theorem instrument_labels_without_stdin_line (code : string) :
  in_list "process.stdin.on" (split code lf) = false →
  ∃ labels : list string,
    length labels = length (split code lf)
    ∧ FirstIteration.instrument code = instrumented_with labels (split code lf)
    ∧ Forall (λ label,
                label = "global"
                ∨ ∃ line, line ∈ split code lf
                          ∧ FirstIteration.match_function line = Some label)
        labels.
Proof.
  intros Hno. eexists. split; [|split; [apply instrument_value|]].
  - by rewrite length_fmap, instrument_states_length.
  - apply instrument_states_labels; [by left|by left| |by rewrite Hno].
    intros line name Hin Hm. right. by exists line.
Qed.

Lemma instrument_line_braces (lines : list string)
    (st : FirstIteration.instrument_state) (line : string) :
  let st' := FirstIteration.instrument_line lines st line in
  (FirstIteration.in_function st = false →
   FirstIteration.current_function st = "global") →
  FirstIteration.brace_count st'
  = (FirstIteration.brace_count st + brace_delta line)%Z
  ∧ (FirstIteration.in_function st' = false →
     FirstIteration.current_function st' = "global")
  ∧ (FirstIteration.brace_count st' = 0%Z →
     FirstIteration.current_function st' = "global").
Proof.
  cbv zeta. intros Hinv. unfold FirstIteration.instrument_line, brace_delta.
  set (bc := (FirstIteration.brace_count st + _)%Z).
  destruct (FirstIteration.match_function line) as [name|].
  - destruct (bc =? 0)%Z eqn:Hbc; simpl; (split; [done|]); [done|].
    split; [done|]. intros Hz. by rewrite Hz in Hbc.
  - destruct (contains "function(" line || contains "function (" line);
      [destruct (in_list _ _)|].
    + destruct (bc =? 0)%Z eqn:Hbc; simpl; (split; [done|]); [done|].
      split; [done|]. intros Hz. by rewrite Hz in Hbc.
    + destruct (bc =? 0)%Z eqn:Hbc, (FirstIteration.in_function st) eqn:Hin;
        simpl; (split; [done|]); try done; (split; [by auto|]).
      * auto.
      * intros Hz. by rewrite Hz in Hbc.
      * intros Hz. by rewrite Hz in Hbc.
    + destruct (bc =? 0)%Z eqn:Hbc, (FirstIteration.in_function st) eqn:Hin;
        simpl; (split; [done|]); try done; (split; [by auto|]).
      * auto.
      * intros Hz. by rewrite Hz in Hbc.
      * intros Hz. by rewrite Hz in Hbc.
Qed.

Lemma instrument_states_braces (lines : list string)
    (st st' : FirstIteration.instrument_state) (ls : list string) (i : nat) :
  (FirstIteration.in_function st = false →
   FirstIteration.current_function st = "global") →
  instrument_states lines st ls !! i = Some st' →
  FirstIteration.brace_count st'
  = (FirstIteration.brace_count st + brace_balance (take (S i) ls))%Z
  ∧ (FirstIteration.brace_count st' = 0%Z →
     FirstIteration.current_function st' = "global").
Proof.
  revert st i. induction ls as [|l ls IH]; intros st i Hinv; [done|].
  destruct (instrument_line_braces lines st l Hinv) as (Hbc & Hinv' & Hzero).
  destruct i as [|i]; simpl.
  - intros [= <-]. split; [|done]. rewrite Hbc. lia.
  - intros Hi. destruct (IH _ _ Hinv' Hi) as [Hb Hz]. split; [|done].
    rewrite Hb, Hbc. simpl. lia.
Qed.

(** X17. Whenever the braces of the code balance at the end of a line
    (as many opened as closed on the lines up to and including it), the
    probe of that line is labelled [global]: a function whose body
    opens and closes on its declaration line never names a probe. *)
Theorem instrument_global_when_braces_balance (code : string) :
  ∃ labels : list string,
    length labels = length (split code lf)
    ∧ FirstIteration.instrument code = instrumented_with labels (split code lf)
    ∧ ∀ i : nat,
        i < length (split code lf) →
        brace_balance (take (S i) (split code lf)) = 0%Z →
        labels !! i = Some "global".
Proof.
  eexists. split; [|split; [apply instrument_value|]].
  - by rewrite length_fmap, instrument_states_length.
  - intros i Hi Hbal.
    destruct (lookup_lt_is_Some_2
                (instrument_states (split code lf) FirstIteration.initial_state
                   (split code lf)) i) as [st' Hst'].
    { by rewrite instrument_states_length. }
    rewrite list_lookup_fmap, Hst'. simpl. f_equal.
    destruct (instrument_states_braces _ FirstIteration.initial_state _ _ _
                (λ _, eq_refl) Hst') as [Hb Hz].
    apply Hz. rewrite Hb, Hbal. done.
Qed.

Lemma instrument_labels_without_stdin_line_witness :
  let code := "function f() {" +:+ String lf "  return 1;" +:+ String lf "}" in
  in_list "process.stdin.on" (split code lf) = false
  ∧ ∃ labels : list string,
      length labels = length (split code lf)
      ∧ FirstIteration.instrument code = instrumented_with labels (split code lf)
      ∧ Forall (λ label,
                  label = "global"
                  ∨ ∃ line, line ∈ split code lf
                            ∧ FirstIteration.match_function line = Some label)
          labels.
Proof.
  split; [reflexivity|].
  apply instrument_labels_without_stdin_line. reflexivity.
Defined.

Lemma first_list_head (json_loads : string → option json) (lines : list string) :
  FirstIteration.first_list json_loads lines
  = default [] (head (omap (array_line json_loads) lines)).
Proof.
  induction lines as [|line lines IH]; [done|].
  simpl. unfold array_line at 1.
  destruct (String.eqb (strip line) ""); simpl; [done|].
  destruct (json_loads line) as [[]|]; simpl; done.
Qed.

(** X18. The first iteration returns the array of the first line of the
    stripped stderr that is not blank and decodes to an array, and
    nothing else: arrays on later lines are never read, and the elements
    of the array are not checked to be records.  Without such a line the
    trace is empty. *)
Theorem first_iteration_takes_first_array
    (json_loads : string → option json) (stderr : string) :
  FirstIteration.traces_of_stderr json_loads stderr
  = default [] (head (omap (array_line json_loads) (split (strip stderr) lf)))
  ∧ ∀ (before after : list string) (line : string) (parsed : list json),
      Forall (λ l, array_line json_loads l = None) before →
      array_line json_loads line = Some parsed →
      FirstIteration.first_list json_loads (before ++ line :: after) = parsed.
Proof.
  split.
  - unfold FirstIteration.traces_of_stderr.
    destruct (String.eqb_spec stderr "") as [->|_]; simpl; [done|].
    apply first_list_head.
  - intros before after line parsed Hbefore Hline.
    rewrite first_list_head, omap_app. simpl. rewrite Hline.
    replace (omap (array_line json_loads) before) with (@nil (list json)); [done|].
    symmetry. induction Hbefore as [|l ls Hl _ IH]; simpl; [done|].
    by rewrite Hl.
Qed.

(** * The static extraction of probes *)

Lemma string_length_app (a b : string) :
  String.length (a +:+ b) = String.length a + String.length b.
Proof. induction a as [|c a IH]; simpl; [done|by rewrite IH]. Qed.

Lemma string_app_assoc (a b c : string) : (a +:+ b) +:+ c = a +:+ (b +:+ c).
Proof.
  induction a as [|x a IH]; [done|].
  change (String x ((a +:+ b) +:+ c) = String x (a +:+ (b +:+ c))).
  by rewrite IH.
Qed.

Lemma re_star_run (cls : ascii → bool) (w r : string) (c : ascii) :
  all_chars cls w = true → cls c = false →
  FourthIteration.re_star cls (w +:+ String c r) = String c r
  ∧ FirstIteration.re_run cls (w +:+ String c r) = w.
Proof.
  intros Hw Hc. induction w as [|x w IH]; simpl.
  - by rewrite Hc.
  - simpl in Hw. apply andb_true_iff in Hw as [Hx Hw]. rewrite Hx.
    destruct (IH Hw) as [-> ->]. done.
Qed.

Lemma re_lit_prefix (p s : string) :
  String.prefix p s = false → FourthIteration.re_lit p s = None.
Proof.
  revert s. induction p as [|a p IH]; intros [|b s]; simpl; try done.
  destruct (ascii_dec a b) as [->|Hne].
  - rewrite Ascii.eqb_refl. apply IH.
  - intros _. by apply Ascii.eqb_neq in Hne as ->.
Qed.

Lemma re_lit_before (p t rest : string) (c : ascii) :
  count p c = 0 → FourthIteration.re_lit p t = None →
  FourthIteration.re_lit p (t +:+ String c rest) = None.
Proof.
  revert t. induction p as [|a p IH]; intros t Hc; [done|].
  simpl in Hc. destruct (Ascii.eqb_spec a c) as [->|Hac]; [done|].
  destruct t as [|b t]; simpl.
  - intros _. by apply Ascii.eqb_neq in Hac as ->.
  - destruct (Ascii.eqb a b); [|done]. by apply IH.
Qed.

Lemma TRACE_CALL_RE_match_none (s : string) :
  FourthIteration.re_lit "__trace.add(" s = None →
  ExecutionTrace.TRACE_CALL_RE_match s = None.
Proof. intros H. unfold ExecutionTrace.TRACE_CALL_RE_match. by rewrite H. Qed.

Lemma finditer_skip (m r : string) :
  ExecutionTrace.finditer (String.length m) (m +:+ r) = ExecutionTrace.finditer 0 r.
Proof. induction m as [|c m IH]; simpl; [by destruct r|done]. Qed.

(** A line without the text [__trace.add(] holds no match, and none
    starts in it and ends after it. *)
Lemma finditer_clean (line rest : string) :
  contains "__trace.add(" line = false →
  ExecutionTrace.finditer 0 (line +:+ String lf rest) = ExecutionTrace.finditer 0 rest.
Proof.
  induction line as [|c line IH]; intros Hclean.
  - done.
  - simpl in Hclean. apply orb_false_iff in Hclean as [Hp Hc].
    change (String c line +:+ String lf rest)
      with (String c (line +:+ String lf rest)).
    cbn [ExecutionTrace.finditer].
    rewrite TRACE_CALL_RE_match_none; [by apply IH|].
    apply (re_lit_before _ (String c line)); [done|].
    by apply re_lit_prefix.
Qed.

Lemma str_int_digits (n : nat) :
  all_chars ExecutionTrace.is_digit (str_int (Z.of_nat n)) = true
  ∧ str_int (Z.of_nat n) ≠ "".
Proof.
  unfold str_int.
  assert (∀ d, all_chars ExecutionTrace.is_digit (NilEmpty.string_of_uint d) = true)
    as Hall0 by (induction d; simpl; rewrite ?IHd; done).
  assert (∀ d, all_chars ExecutionTrace.is_digit (NilZero.string_of_uint d) = true)
    as Hall by (intros []; first [done|apply Hall0]).
  assert (∀ d, d ≠ Decimal.Nil → NilZero.string_of_uint d ≠ "")
    as Hne by (by intros []).
  destruct (Z.of_nat n) as [|p|p] eqn:Hn; simpl; [done| |lia].
  split; [apply Hall|apply Hne, DecimalPos.Unsigned.to_uint_nonnil].
Qed.

Lemma is_w_not_quote (c : ascii) :
  FirstIteration.is_w c = true → ExecutionTrace.not_quote c = true.
Proof. destruct c as [[] [] [] [] [] [] [] []]; vm_compute; congruence. Qed.

Lemma is_w_not_space (c : ascii) :
  FirstIteration.is_w c = true → isspace c = false.
Proof. destruct c as [[] [] [] [] [] [] [] []]; vm_compute; congruence. Qed.

Lemma name_group_word (name : string) :
  name ≠ "" → all_chars FirstIteration.is_w name = true →
  ExecutionTrace.name_group name = Some name.
Proof.
  destruct name as [|c name]; [done|]. intros _ [Hc _]%andb_true_iff.
  unfold ExecutionTrace.name_group. simpl.
  by rewrite (is_w_not_space c Hc).
Qed.

(** The pattern reads a probe back. *)
Lemma TRACE_CALL_RE_match_probe (label digits rest : string) :
  label ≠ "" → all_chars FirstIteration.is_w label = true →
  digits ≠ "" → all_chars ExecutionTrace.is_digit digits = true →
  ExecutionTrace.TRACE_CALL_RE_match
    ("__trace.add(" +:+ dquote +:+ label +:+ dquote +:+ ", " +:+ digits
     +:+ ")" +:+ rest)
  = Some (label, digits, rest).
Proof.
  intros Hne Hw Hdne Hd. unfold ExecutionTrace.TRACE_CALL_RE_match.
  change (FourthIteration.re_lit "__trace.add(" _)
    with (Some (dquote +:+ label +:+ dquote +:+ ", " +:+ digits +:+ ")" +:+ rest)).
  cbn [mbind option_bind].
  change (dquote +:+ label +:+ dquote +:+ ", " +:+ digits +:+ ")" +:+ rest)
    with (String (ascii_of_nat 34)
            (label +:+ String (ascii_of_nat 34) (", " +:+ digits +:+ ")" +:+ rest))).
  cbn [FourthIteration.re_star]. change (isspace (ascii_of_nat 34)) with false.
  cbv iota. change (ExecutionTrace.is_quote (ascii_of_nat 34)) with true. cbv iota.
  destruct (re_star_run ExecutionTrace.not_quote label
              (", " +:+ digits +:+ ")" +:+ rest) (ascii_of_nat 34)
              (all_chars_impl FirstIteration.is_w _ label is_w_not_quote Hw)
              eq_refl) as [-> ->].
  rewrite (name_group_word label Hne Hw). cbn [mbind option_bind].
  rewrite Ascii.eqb_refl.
  change (", " +:+ digits +:+ ")" +:+ rest)
    with (String "," (String " " (digits +:+ String ")" rest))).
  change (FourthIteration.re_star isspace (String "," _))
    with (String "," (String " " (digits +:+ String ")" rest))).
  change (FourthIteration.re_lit "," (String "," ?r)) with (Some r).
  cbn [mbind option_bind].
  change (FourthIteration.re_star isspace (String " " ?r))
    with (FourthIteration.re_star isspace r).
  assert (FourthIteration.re_star isspace (digits +:+ String ")" rest)
          = digits +:+ String ")" rest) as ->.
  { destruct digits as [|c digits]; [done|]. simpl in Hd |- *.
    apply andb_true_iff in Hd as [Hc _].
    replace (isspace c) with false; [done|].
    revert Hc. destruct c as [[] [] [] [] [] [] [] []]; vm_compute; congruence. }
  destruct (re_star_run ExecutionTrace.is_digit digits rest ")" Hd eq_refl)
    as [-> ->].
  destruct digits as [|c digits]; [done|]. done.
Qed.

(** A probe line holds exactly one match. *)
Lemma finditer_probe (label : string) (n : nat) (rest : string) :
  label ≠ "" → all_chars FirstIteration.is_w label = true →
  ExecutionTrace.finditer 0 (FirstIteration.trace_point label n +:+ String lf rest)
  = (label, str_int (Z.of_nat n)) :: ExecutionTrace.finditer 0 rest.
Proof.
  intros Hne Hw. destruct (str_int_digits n) as [Hd Hdne].
  set (digits := str_int (Z.of_nat n)) in *.
  set (tail := String ";" (String lf rest)).
  set (inner := dquote +:+ label +:+ dquote +:+ ", " +:+ digits +:+ ")").
  assert (FirstIteration.trace_point label n +:+ String lf rest
          = String " " (String " " ("__trace.add(" +:+ inner +:+ tail))) as ->.
  { unfold FirstIteration.trace_point, inner, tail. fold digits.
    rewrite !string_app_assoc. done. }
  cbn [ExecutionTrace.finditer].
  change (ExecutionTrace.TRACE_CALL_RE_match (String " " _)) with
    (@None (string * string * string)).
  cbv iota.
  assert (ExecutionTrace.TRACE_CALL_RE_match ("__trace.add(" +:+ inner +:+ tail)
          = Some (label, digits, tail)) as Hm.
  { unfold inner. rewrite !string_app_assoc.
    by apply TRACE_CALL_RE_match_probe. }
  change ("__trace.add(" +:+ inner +:+ tail)
    with (String "_" ("_trace.add(" +:+ inner +:+ tail)) in Hm |- *.
  cbn [ExecutionTrace.finditer]. rewrite Hm.
  f_equal.
  replace (String.length (String "_" ("_trace.add(" +:+ inner +:+ tail))
           - String.length tail - 1)
    with (String.length ("_trace.add(" +:+ inner)).
  - rewrite <- string_app_assoc, finditer_skip. done.
  - change (String "_" ("_trace.add(" +:+ inner +:+ tail))
      with (String "_" (("_trace.add(" +:+ inner) +:+ tail)) at 1.
    + cbn [String.length]. rewrite (string_length_app ("_trace.add(" +:+ inner) tail).
      lia.
Qed.

(** [int] reads back the numeral that [str] writes. *)
Lemma int_from_acc (d : Decimal.uint) (acc : positive) :
  ExecutionTrace.int_from (Z.pos acc) (NilEmpty.string_of_uint d)
  = Z.pos (Pos.of_uint_acc d acc).
Proof.
  revert acc. induction d; intros acc; simpl; [done|..];
    rewrite <- IHd; f_equal; unfold ExecutionTrace.digit_value;
    match goal with
    | |- context [Z.of_nat (code ?c)] =>
        let v := eval vm_compute in (Z.of_nat (code c)) in
        change (Z.of_nat (code c)) with v
    end; lia.
Qed.

Lemma int_from_uint (d : Decimal.uint) :
  ExecutionTrace.int_from 0 (NilEmpty.string_of_uint d) = Z.of_N (Pos.of_uint d).
Proof.
  induction d; simpl; [done|exact IHd|..]; apply (int_from_acc d).
Qed.

Lemma of_uint_acc_lower (d : Decimal.uint) (acc : positive) :
  (Z.pos acc * 10 ^ Z.of_nat (Decimal.nb_digits d)
   ≤ Z.pos (Pos.of_uint_acc d acc))%Z.
Proof.
  revert acc. induction d; intros acc; cbn [Decimal.nb_digits Pos.of_uint_acc];
    [simpl; lia|..];
    (etrans; [|apply IHd]);
    rewrite Nat2Z.inj_succ, Z.pow_succ_r by lia;
    assert (0 < 10 ^ Z.of_nat (Decimal.nb_digits d))%Z by (apply Z.pow_pos_nonneg; lia);
    nia.
Qed.

Lemma to_uint_leading (p : positive) (l : Decimal.uint) :
  Pos.to_uint p ≠ Decimal.D0 l.
Proof.
  intros Hp. pose proof (DecimalPos.Unsigned.to_of (Pos.to_uint p)) as Hto.
  rewrite DecimalPos.Unsigned.of_to in Hto. simpl in Hto.
  rewrite Hp in Hto. unfold Decimal.unorm in Hto.
  pose proof (DecimalFacts.nzhead_nonzero (Decimal.D0 l)) as Hnz.
  destruct (Decimal.nzhead (Decimal.D0 l)) eqn:Hh; try discriminate.
  - injection Hto as ->. by apply (DecimalPos.Unsigned.to_uint_nonzero p).
  - by apply (Hnz u).
Qed.

Lemma str_int_length (p : positive) (k : nat) :
  (Z.pos p < 10 ^ Z.of_nat k)%Z →
  String.length (str_int (Z.pos p)) ≤ k.
Proof.
  intros Hlt. unfold str_int. simpl.
  pose proof (DecimalPos.Unsigned.of_to p) as Hof.
  pose proof (to_uint_leading p) as Hlead.
  pose proof (DecimalPos.Unsigned.to_uint_nonnil p) as Hnil.
  set (d := Pos.to_uint p) in *.
  assert (∀ u, String.length (NilEmpty.string_of_uint u) = Decimal.nb_digits u)
    as Hlen by (induction u; simpl; rewrite ?IHu; done).
  assert (String.length (NilZero.string_of_uint d) = Decimal.nb_digits d) as ->.
  { destruct d; try apply Hlen. done. }
  assert (∀ u acc, Pos.of_uint d = N.pos (Pos.of_uint_acc u acc) →
                   Decimal.nb_digits d = S (Decimal.nb_digits u) →
                   Decimal.nb_digits d ≤ k) as Hcase.
  { intros u acc Hd Hnb. rewrite Hof in Hd. injection Hd as ->.
    pose proof (of_uint_acc_lower u acc) as Hlow.
    assert (10 ^ Z.of_nat (Decimal.nb_digits u) < 10 ^ Z.of_nat k)%Z as Hpow.
    { assert (0 < 10 ^ Z.of_nat (Decimal.nb_digits u))%Z
        by (apply Z.pow_pos_nonneg; lia). nia. }
    apply Z.pow_lt_mono_r_iff in Hpow; lia. }
  destruct d as [|u|u|u|u|u|u|u|u|u|u]; [done|by destruct (Hlead u)|..];
    eapply Hcase; reflexivity.
Qed.

Lemma int_str_int (n : nat) :
  (Z.of_nat n < 10 ^ 4300)%Z →
  ExecutionTrace.int (str_int (Z.of_nat n)) = Some (Z.of_nat n).
Proof.
  intros Hlt. unfold ExecutionTrace.int.
  destruct (Z.of_nat n) as [|p|p] eqn:Hn; [done| |clear Hlt; lia].
  pose proof (str_int_length p 4300 Hlt) as Hlen. clear Hlt.
  destruct (Nat.ltb_spec 4300 (String.length (str_int (Z.pos p)))) as [|_]; [lia|].
  f_equal. unfold str_int. simpl.
  pose proof (DecimalPos.Unsigned.to_uint_nonnil p) as Hnil.
  assert (NilZero.string_of_uint (Pos.to_uint p)
          = NilEmpty.string_of_uint (Pos.to_uint p)) as ->
    by (by destruct (Pos.to_uint p)).
  by rewrite int_from_uint, DecimalPos.Unsigned.of_to.
Qed.

Lemma join_cons (sep x : string) (xs : list string) :
  xs ≠ [] → join sep (x :: xs) = x +:+ sep +:+ join sep xs.
Proof. by destruct xs. Qed.

Lemma finditer_join_clean (L R : list string) :
  Forall (λ line, contains "__trace.add(" line = false) L → R ≠ [] →
  ExecutionTrace.finditer 0 (join (String lf "") (L ++ R))
  = ExecutionTrace.finditer 0 (join (String lf "") R).
Proof.
  intros HL HR. induction HL as [|l L Hl _ IH]; [done|].
  change ((l :: L) ++ R) with (l :: (L ++ R)).
  rewrite join_cons by (by destruct L, R).
  change (String lf "" +:+ ?s) with (String lf s).
  by rewrite finditer_clean.
Qed.

Lemma finditer_body (lines labels : list string) (k : nat) (R : list string) :
  R ≠ [] →
  Forall (λ label, label ≠ "" ∧ all_chars FirstIteration.is_w label = true) labels →
  Forall (λ line, contains "__trace.add(" line = false) lines →
  ExecutionTrace.finditer 0
    (join (String lf "")
       (concat (imap (λ i '(label, line),
                        (if FirstIteration.significant line
                         then [FirstIteration.trace_point label (k + i + 1)] else [])
                        ++ [line])
                  (zip labels lines)) ++ R))
  = concat (imap (λ i '(label, line),
                    if FirstIteration.significant line
                    then [(label, str_int (Z.of_nat (k + i + 1)))] else [])
              (zip labels lines))
    ++ ExecutionTrace.finditer 0 (join (String lf "") R).
Proof.
  intros HR Hlabels Hlines. revert labels k Hlabels.
  induction Hlines as [|line lines Hline _ IH]; intros labels k Hlabels.
  { by rewrite zip_with_nil_r. }
  destruct Hlabels as [|label labels [Hne Hw] Hlabels]; [done|].
  cbn [zip_with imap concat].
  rewrite (imap_ext _ (λ i '(label, line),
                         (if FirstIteration.significant line
                          then [FirstIteration.trace_point label (S k + i + 1)]
                          else []) ++ [line]))
    by (intros i [] _; unfold compose;
        by replace (k + S i + 1) with (S k + i + 1) by lia).
  rewrite (imap_ext (_ ∘ S) (λ i '(label, line),
                         if FirstIteration.significant line
                         then [(label, str_int (Z.of_nat (S k + i + 1)))]
                         else []))
    by (intros i [] _; unfold compose;
        by replace (k + S i + 1) with (S k + i + 1) by lia).
  specialize (IH labels (S k) Hlabels).
  match type of IH with
  | ExecutionTrace.finditer 0 (join _ (?b ++ R)) = ?f ++ _ =>
      set (body := b) in *; set (found := f) in *
  end.
  rewrite <- !app_assoc.
  assert (ExecutionTrace.finditer 0 (join (String lf "") ([line] ++ body ++ R))
          = found ++ ExecutionTrace.finditer 0 (join (String lf "") R)) as Hrest.
  { rewrite (finditer_join_clean [line]); [done|by constructor|by destruct body, R]. }
  destruct (FirstIteration.significant line); [|done].
  cbn [app]. rewrite join_cons by done.
  change (String lf "" +:+ ?s) with (String lf s).
  rewrite finditer_probe by done. rewrite Nat.add_0_r. f_equal. exact Hrest.
Qed.

Lemma instrument_states_words (lines : list string)
    (st : FirstIteration.instrument_state) (ls : list string) :
  FirstIteration.current_function st ≠ ""
  ∧ all_chars FirstIteration.is_w (FirstIteration.current_function st) = true →
  Forall (λ label, label ≠ "" ∧ all_chars FirstIteration.is_w label = true)
    (FirstIteration.current_function <$> instrument_states lines st ls).
Proof.
  intros Hst. apply instrument_states_labels; [done|done| |done].
  intros line name _. apply match_function_name.
Qed.

Lemma finditer_instrument (code : string) :
  Forall (λ line, contains "__trace.add(" line = false) (split code lf) →
  ExecutionTrace.finditer 0 (FirstIteration.instrument code)
  = probes (FirstIteration.current_function
              <$> instrument_states (split code lf) FirstIteration.initial_state
                    (split code lf))
      (split code lf).
Proof.
  intros Hclean. rewrite instrument_value. unfold instrumented_with, probes.
  rewrite finditer_join_clean;
    [|repeat (constructor; [reflexivity|]); constructor
     |by destruct (concat _)].
  rewrite (finditer_body _ _ 0); [|done|by apply instrument_states_words|done].
  change (ExecutionTrace.finditer 0 (join _ FirstIteration.footer))
    with (@nil (string * string)).
  by rewrite app_nil_r.
Qed.

Lemma mapM_entry_of_probes (lines labels : list string) (k N : nat) :
  (∀ n, n ≤ N → ExecutionTrace.int (str_int (Z.of_nat n)) = Some (Z.of_nat n)) →
  k + length lines ≤ N →
  mapM ExecutionTrace.entry_of
    (concat (imap (λ i '(label, line),
                     if FirstIteration.significant line
                     then [(label, str_int (Z.of_nat (k + i + 1)))] else [])
               (zip labels lines)))
  = Some (concat (imap (λ i '(label, line),
                     if FirstIteration.significant line
                     then [[("function", JStr label);
                            ("line", JInt (Z.of_nat (k + i + 1)))]] else [])
               (zip labels lines))).
Proof.
  intros Hint. revert labels k. induction lines as [|line lines IH]; intros labels k Hk.
  { by rewrite zip_with_nil_r. }
  destruct labels as [|label labels]; [done|].
  cbn [zip_with imap concat].
  rewrite (imap_ext (_ ∘ S) (λ i '(label, line),
                         if FirstIteration.significant line
                         then [(label, str_int (Z.of_nat (S k + i + 1)))]
                         else []))
    by (intros i [] _; unfold compose;
        by replace (k + S i + 1) with (S k + i + 1) by lia).
  rewrite (imap_ext (_ ∘ S) (λ i '(label, line),
                         if FirstIteration.significant line
                         then [[("function", JStr label);
                                ("line", JInt (Z.of_nat (S k + i + 1)))]]
                         else []))
    by (intros i [] _; unfold compose;
        by replace (k + S i + 1) with (S k + i + 1) by lia).
  cbn [length] in Hk.
  specialize (IH labels (S k)).
  destruct (FirstIteration.significant line); cbn [app];
    [|by rewrite IH by lia].
  assert (ExecutionTrace.entry_of (label, str_int (Z.of_nat (k + 0 + 1)))
          = Some [("function", JStr label); ("line", JInt (Z.of_nat (k + 0 + 1)))])
    as Hentry.
  { unfold ExecutionTrace.entry_of. cbn [fst snd]. by rewrite Hint by lia. }
  cbn [mapM]. rewrite Hentry. cbn [mbind option_bind].
  by rewrite IH by lia.
Qed.

(** X19. The static extraction reads back what the instrumenter of the
    first iteration wrote: for code none of whose lines holds the text
    [__trace.add(] (and with fewer than 10^4300 lines, so that no line
    number exceeds the numeral limit), [parse_instrumented_file] on
    [instrument code] returns one record per significant line, in
    order, with the label of its probe as [function] and its 1-based
    number as [line]; nothing of the prologue, the epilogue or the code
    is taken for a probe. *)
Theorem parse_instrumented_file_reads_probes (code : string) :
  Forall (λ line, contains "__trace.add(" line = false) (split code lf) →
  (Z.of_nat (length (split code lf)) < 10 ^ 4300)%Z →
  ∃ labels : list string,
    length labels = length (split code lf)
    ∧ FirstIteration.instrument code = instrumented_with labels (split code lf)
    ∧ ExecutionTrace.finditer 0 (FirstIteration.instrument code)
      = probes labels (split code lf)
    ∧ ExecutionTrace.parse_instrumented_file (FirstIteration.instrument code)
      = Some (probe_records labels (split code lf)).
Proof.
  intros Hclean Hlen. eexists.
  split; [|split; [apply instrument_value|split; [by apply finditer_instrument|]]].
  - by rewrite length_fmap, instrument_states_length.
  - unfold ExecutionTrace.parse_instrumented_file.
    rewrite finditer_instrument by done.
    apply (mapM_entry_of_probes _ _ 0 (length (split code lf))); [|done].
    intros n Hn. apply int_str_int.
    apply (Z.le_lt_trans _ (Z.of_nat (length (split code lf)))); [|exact Hlen].
    by apply Nat2Z.inj_le.
Qed.

Lemma parse_instrumented_file_reads_probes_witness :
  let code := "function f() {" +:+ String lf "  return 1;" +:+ String lf "}" in
  Forall (λ line, contains "__trace.add(" line = false) (split code lf)
  ∧ (Z.of_nat (length (split code lf)) < 10 ^ 4300)%Z
  ∧ ∃ labels : list string,
      length labels = length (split code lf)
      ∧ FirstIteration.instrument code = instrumented_with labels (split code lf)
      ∧ ExecutionTrace.finditer 0 (FirstIteration.instrument code)
        = probes labels (split code lf)
      ∧ ExecutionTrace.parse_instrumented_file (FirstIteration.instrument code)
        = Some (probe_records labels (split code lf)).
Proof.
  assert (Forall (λ line, contains "__trace.add(" line = false)
            (split ("function f() {" +:+ String lf "  return 1;" +:+ String lf "}") lf))
    as Hclean by (repeat constructor).
  assert (Z.of_nat (length (split ("function f() {" +:+ String lf "  return 1;"
                                   +:+ String lf "}") lf)) < 10 ^ 4300)%Z
    as Hlen.
  { apply (Z.lt_le_trans _ (10 ^ 1)); [reflexivity|].
    apply Z.pow_le_mono_r; [reflexivity|discriminate]. }
  split; [exact Hclean|]. split; [exact Hlen|].
  exact (parse_instrumented_file_reads_probes _ Hclean Hlen).
Defined.
